(** * iggy-mcp-server: the request handlers of [src/index.ts]

    A shallow embedding of the four request handlers the server registers
    (list-resources, read-resource, list-tools, call-tool) together with the
    part of the JavaScript run time they rest on: the conversions [String],
    [Number] and truthiness on values that arrive as JSON, [JSON.stringify],
    property lookup on an object literal, and the URL parser behind
    [new URL(...).pathname].

    Strings are sequences of bytes (the UTF-8 encoding of the JavaScript
    string); every piece of text the handlers inspect is ASCII. *)

From Stdlib Require Import String Ascii List Bool ZArith Lia.
From Stdlib Require Import DecimalString.
Import ListNotations.

Local Open Scope list_scope.
Local Open Scope string_scope.
Set Warnings "-register-all".

(* ------------------------------------------------------------------ *)
(** ** Text helpers *)

Definition quote_char : ascii := ascii_of_nat 34.
Definition newline_char : ascii := ascii_of_nat 10.
Definition backslash_char : ascii := ascii_of_nat 92.

Definition str1 (c : ascii) : string := String c EmptyString.

(** A string literal as JSON prints it when it needs no escape. *)
Definition dq (s : string) : string := str1 quote_char ++ s ++ str1 quote_char.

(** A member of a JSON object whose value is a string, printed without gap. *)
Definition member (key text : string) : string := dq key ++ ":" ++ dq text.

Definition nl : string := str1 newline_char.

Fixpoint join (sep : string) (parts : list string) : string :=
  match parts with
  | [] => EmptyString
  | [p] => p
  | p :: rest => p ++ sep ++ join sep rest
  end.

Definition is_empty (s : string) : bool :=
  match s with EmptyString => true | String _ _ => false end.

Definition code (c : ascii) : nat := nat_of_ascii c.

Definition hex_digit (n : nat) : ascii :=
  ascii_of_nat (if Nat.ltb n 10 then 48 + n else 87 + n).

Definition upper_hex_digit (n : nat) : ascii :=
  ascii_of_nat (if Nat.ltb n 10 then 48 + n else 55 + n).

Fixpoint starts_with (pre s : string) : bool :=
  match pre with
  | EmptyString => true
  | String a pre' =>
      match s with
      | EmptyString => false
      | String b s' => Ascii.eqb a b && starts_with pre' s'
      end
  end.

(* ------------------------------------------------------------------ *)
(** ** Exceptions and effects

    A handler either returns or throws; on the way it may write to the
    console and call [fetch]. The writes and calls are kept in order in a
    trace. *)

Inductive error_class := ErrorC | TypeErrorC | SyntaxErrorC.

Record js_error := mkError { err_class : error_class; err_message : string }.

Definition Error (msg : string) : js_error := mkError ErrorC msg.
Definition TypeError (msg : string) : js_error := mkError TypeErrorC msg.
Definition SyntaxError (msg : string) : js_error := mkError SyntaxErrorC msg.

Inductive outcome (A : Type) :=
| Return (a : A)
| Throw (e : js_error).
Arguments Return {A} a.
Arguments Throw {A} e.

Definition obind {A B} (m : outcome A) (k : A -> outcome B) : outcome B :=
  match m with
  | Return a => k a
  | Throw e => Throw e
  end.

Declare Scope outcome_scope.
Delimit Scope outcome_scope with outcome.
Notation "x <- m ;; k" := (obind m (fun x => k))
  (at level 61, m at next level, right associativity) : outcome_scope.

(** What [fetch] is called with. Both calls of the source POST a JSON body
    with the one header [Content-Type: application/json]. *)
Record fetch_request := mkFetch {
  fetch_url : string;
  fetch_method : string;
  fetch_headers : list (string * string);
  fetch_body : option string
}.

Inductive event :=
| ConsoleLog (line : string)
| ConsoleError (label : string) (e : js_error)
| Fetch (req : fetch_request).

(** A computation with effects: the trace it leaves and how it ends. *)
Definition eff (A : Type) : Type := list event * outcome A.

Definition ret {A} (a : A) : eff A := ([], Return a).
Definition throw {A} (e : js_error) : eff A := ([], Throw e).
Definition emit (ev : event) : eff unit := ([ev], Return tt).
Definition lift {A} (o : outcome A) : eff A := ([], o).

Definition bind {A B} (m : eff A) (k : A -> eff B) : eff B :=
  match m with
  | (tr, Return a) => let (tr', o) := k a in ((tr ++ tr')%list, o)
  | (tr, Throw e) => (tr, Throw e)
  end.

(** [try { m } catch (error) { h error }] *)
Definition try_catch {A} (m : eff A) (h : js_error -> eff A) : eff A :=
  match m with
  | (tr, Return a) => (tr, Return a)
  | (tr, Throw e) => let (tr', o) := h e in ((tr ++ tr')%list, o)
  end.

Declare Scope eff_scope.
Delimit Scope eff_scope with eff.
Notation "x <- m ;; k" := (bind m (fun x => k))
  (at level 61, m at next level, right associativity) : eff_scope.
Notation "m ;; k" := (bind m (fun _ => k))
  (at level 61, right associativity) : eff_scope.

Definition fetches (tr : list event) : list fetch_request :=
  flat_map (fun ev => match ev with Fetch r => [r] | _ => [] end) tr.

(* ------------------------------------------------------------------ *)
(** ** Numbers

    JSON numbers are IEEE doubles. Nothing the handlers do looks inside one:
    they are printed, parsed, tested for truth and for finiteness, so the
    number type and those operations are an interface of the run time. *)

Class JSNumber := {
  number : Type;
  (** Number::toString, radix 10 *)
  Number_toString : number -> string;
  (** StringToNumber *)
  StringToNumber : string -> number;
  NaN : number;
  num_zero : number;
  num_one : number;
  (** +0, -0 and NaN convert to [false] *)
  number_is_falsy : number -> bool;
  (** neither NaN nor an infinity *)
  number_is_finite : number -> bool
}.

(** The integers and NaN: a run time whose numbers are enough to execute the
    handlers on requests that carry integers or no number at all. *)
Definition int_toString (n : option Z) : string :=
  match n with
  | None => "NaN"
  | Some z => NilEmpty.string_of_int (Z.to_int z)
  end.

Definition int_of_string (s : string) : option Z :=
  match s with
  | EmptyString => Some 0%Z
  | _ => option_map Z.of_int (NilEmpty.int_of_string s)
  end.

Definition IntegerNumbers : JSNumber := {|
  number := option Z;
  Number_toString := int_toString;
  StringToNumber := int_of_string;
  NaN := None;
  num_zero := Some 0%Z;
  num_one := Some 1%Z;
  number_is_falsy := fun n => match n with None => true | Some z => Z.eqb z 0 end;
  number_is_finite := fun n => match n with None => false | Some _ => true end
|}.

(* ------------------------------------------------------------------ *)
(** ** Values

    What [JSON.parse] produces, plus [undefined] (the value of an absent
    property and of an untaken conditional). An object lists its own
    properties in property order, keys distinct. *)

Section Runtime.
Context {JSN : JSNumber}.

Inductive value :=
| VUndefined
| VNull
| VBool (b : bool)
| VNum (n : number)
| VStr (s : string)
| VArr (items : list value)
| VObj (props : list (string * value)).

Fixpoint own_property (props : list (string * value)) (key : string) : option value :=
  match props with
  | [] => None
  | (k, v) :: rest => if String.eqb k key then Some v else own_property rest key
  end.

Definition has_own (props : list (string * value)) (key : string) : bool :=
  match own_property props key with Some _ => true | None => false end.

(** [o.key] for a key that no prototype defines (every key the handlers read:
    title, content, source, task_id, payload, text, collection_name, query,
    limit, embedding_model, timeout, texts, metadata). On a string, number,
    boolean or array the result is [undefined]. [o] is never [undefined] or
    [null] where the source reads a property of it. *)
Definition get (o : value) (key : string) : value :=
  match o with
  | VObj props => match own_property props key with Some v => v | None => VUndefined end
  | _ => VUndefined
  end.

(** [request.params.arguments?.key]: the argument bag may be missing. *)
Definition arg (arguments : option (list (string * value))) (key : string) : value :=
  match arguments with
  | None => VUndefined
  | Some props => get (VObj props) key
  end.

(** ToBoolean *)
Definition ToBoolean (v : value) : bool :=
  match v with
  | VUndefined | VNull => false
  | VBool b => b
  | VNum n => negb (number_is_falsy n)
  | VStr s => negb (is_empty s)
  | VArr _ | VObj _ => true
  end.

Definition cannot_convert : js_error :=
  TypeError "Cannot convert object to primitive value".

(** [String(v)]. An array joins its elements with commas, [undefined] and
    [null] elements printing as nothing. A plain object prints through
    [Object.prototype.toString], unless an own property named [toString]
    (never callable in parsed JSON) hides it: then no method yields a
    primitive and the conversion throws. *)
Fixpoint ToString (v : value) : outcome string :=
  match v with
  | VUndefined => Return "undefined"
  | VNull => Return "null"
  | VBool b => Return (if b then "true" else "false")
  | VNum n => Return (Number_toString n)
  | VStr s => Return s
  | VArr items =>
      let element x :=
        match x with
        | VUndefined | VNull => Return EmptyString
        | _ => ToString x
        end in
      (fix join_items (l : list value) : outcome string :=
         match l with
         | [] => Return EmptyString
         | [x] => element x
         | x :: rest =>
             (s <- element x ;; r <- join_items rest ;; Return (s ++ "," ++ r))%outcome
         end) items
  | VObj props =>
      if has_own props "toString" then Throw cannot_convert
      else Return "[object Object]"
  end.

(** [Number(v)] *)
Definition ToNumber (v : value) : outcome number :=
  match v with
  | VUndefined => Return NaN
  | VNull => Return num_zero
  | VBool b => Return (if b then num_one else num_zero)
  | VNum n => Return n
  | VStr s => Return (StringToNumber s)
  | VArr _ | VObj _ => (s <- ToString v ;; Return (StringToNumber s))%outcome
  end.

(** *** JSON.stringify *)

Definition quote_code_unit (c : ascii) : string :=
  let n := code c in
  if Nat.eqb n 8 then str1 backslash_char ++ "b"
  else if Nat.eqb n 9 then str1 backslash_char ++ "t"
  else if Nat.eqb n 10 then str1 backslash_char ++ "n"
  else if Nat.eqb n 12 then str1 backslash_char ++ "f"
  else if Nat.eqb n 13 then str1 backslash_char ++ "r"
  else if Nat.eqb n 34 then str1 backslash_char ++ str1 quote_char
  else if Nat.eqb n 92 then str1 backslash_char ++ str1 backslash_char
  else if Nat.ltb n 32 then
    str1 backslash_char ++ "u00" ++ str1 (hex_digit (n / 16)) ++ str1 (hex_digit (n mod 16))
  else str1 c.

Fixpoint quote_body (s : string) : string :=
  match s with
  | EmptyString => EmptyString
  | String c rest => quote_code_unit c ++ quote_body rest
  end.

Definition QuoteJSONString (s : string) : string :=
  str1 quote_char ++ quote_body s ++ str1 quote_char.

(** Members or elements already serialised, wrapped in their brackets:
    nothing between the brackets when there are none, one line when the gap
    is empty, otherwise one per line at the inner indentation. *)
Definition wrap (open close gap stepback : string) (partial : list string) : string :=
  match partial with
  | [] => open ++ close
  | _ =>
      if is_empty gap then open ++ join "," partial ++ close
      else
        let indent := stepback ++ gap in
        open ++ nl ++ indent ++ join ("," ++ nl ++ indent) partial ++ nl ++ stepback ++ close
  end.

(** SerializeJSONProperty: [None] is [undefined]. An [undefined] member is
    dropped from an object and printed as [null] in an array. *)
Fixpoint SerializeJSONProperty (gap indent : string) (v : value) : option string :=
  match v with
  | VUndefined => None
  | VNull => Some "null"
  | VBool b => Some (if b then "true" else "false")
  | VNum n => Some (if number_is_finite n then Number_toString n else "null")
  | VStr s => Some (QuoteJSONString s)
  | VArr items =>
      let inner := indent ++ gap in
      Some (wrap "[" "]" gap indent
              (map (fun x =>
                      match SerializeJSONProperty gap inner x with
                      | Some s => s
                      | None => "null"
                      end) items))
  | VObj props =>
      let inner := indent ++ gap in
      Some (wrap "{" "}" gap indent
              (flat_map (fun kv =>
                           match SerializeJSONProperty gap inner (snd kv) with
                           | Some s =>
                               [QuoteJSONString (fst kv) ++ ":"
                                  ++ (if is_empty gap then EmptyString else " ") ++ s]
                           | None => []
                           end) props))
  end.

(** [JSON.stringify(v)] *)
Definition JSON_stringify (v : value) : option string :=
  SerializeJSONProperty EmptyString EmptyString v.

(** [JSON.stringify(v, null, 2)] *)
Definition JSON_stringify_2 (v : value) : option string :=
  SerializeJSONProperty "  " EmptyString v.

End Runtime.

(* ------------------------------------------------------------------ *)
(** ** The URL parser

    [new URL(input).pathname] after the URL Standard's basic URL parser with
    no base URL: [None] where the constructor throws. The user name,
    password, port, query and fragment are checked where they can make the
    parse fail and otherwise dropped, since only the path is read. Of a host
    only validity matters; the two host grammars that need tables (a domain
    of a special scheme, with IDNA and IPv4 behind it, and an IPv6 literal)
    are an interface of the run time. *)

Class HostParser := {
  (** the IPv6 parser succeeds on the text between the brackets *)
  IPv6_parses : string -> bool;
  (** the host parser succeeds on the non-empty host of a special scheme *)
  domain_parses : string -> bool
}.

(** A run time that knows no domain and no IPv6 literal; it parses the URLs
    with an empty or opaque host, among them every URI the server issues. *)
Definition NoNamedHosts : HostParser := {|
  IPv6_parses := fun _ => false;
  domain_parses := fun _ => false
|}.

Definition ascii_is (n : nat) (c : ascii) : bool := Nat.eqb (code c) n.

Definition is_alpha (c : ascii) : bool :=
  let n := code c in
  (Nat.leb 65 n && Nat.leb n 90) || (Nat.leb 97 n && Nat.leb n 122).

Definition is_digit (c : ascii) : bool :=
  let n := code c in Nat.leb 48 n && Nat.leb n 57.

Definition lower (c : ascii) : ascii :=
  let n := code c in
  if Nat.leb 65 n && Nat.leb n 90 then ascii_of_nat (n + 32) else c.

Fixpoint lower_string (s : string) : string :=
  match s with
  | EmptyString => EmptyString
  | String c rest => String (lower c) (lower_string rest)
  end.

Fixpoint rev_string (acc s : string) : string :=
  match s with
  | EmptyString => acc
  | String c rest => rev_string (String c acc) rest
  end.

Fixpoint drop_while (p : ascii -> bool) (s : string) : string :=
  match s with
  | EmptyString => EmptyString
  | String c rest => if p c then drop_while p rest else s
  end.

Fixpoint filter_string (p : ascii -> bool) (s : string) : string :=
  match s with
  | EmptyString => EmptyString
  | String c rest => if p c then String c (filter_string p rest) else filter_string p rest
  end.

Fixpoint forall_string (p : ascii -> bool) (s : string) : bool :=
  match s with
  | EmptyString => true
  | String c rest => p c && forall_string p rest
  end.

(** The longest prefix with no character in [stop], and what follows it. *)
Fixpoint break (stop : ascii -> bool) (s : string) : string * string :=
  match s with
  | EmptyString => (EmptyString, EmptyString)
  | String c rest =>
      if stop c then (EmptyString, s)
      else let (a, b) := break stop rest in (String c a, b)
  end.

Definition is_c0_or_space (c : ascii) : bool := Nat.leb (code c) 32.

Definition is_tab_or_newline (c : ascii) : bool :=
  ascii_is 9 c || ascii_is 10 c || ascii_is 13 c.

(** Leading and trailing C0 controls and spaces go, then every tab and
    newline. *)
Definition url_input (s : string) : string :=
  let s1 := drop_while is_c0_or_space s in
  let s2 := rev_string EmptyString (drop_while is_c0_or_space (rev_string EmptyString s1)) in
  filter_string (fun c => negb (is_tab_or_newline c)) s2.

Definition is_scheme_char (c : ascii) : bool :=
  is_alpha c || is_digit c || ascii_is 43 c || ascii_is 45 c || ascii_is 46 c.

(** scheme state: the scheme, lower-cased, and what follows the colon *)
Fixpoint scheme_state (buffer s : string) : option (string * string) :=
  match s with
  | EmptyString => None
  | String c rest =>
      if is_scheme_char c then scheme_state (buffer ++ str1 (lower c)) rest
      else if ascii_is 58 c then Some (buffer, rest)
      else None
  end.

(** scheme start state; without a scheme and without a base the parse fails *)
Definition scheme_start_state (s : string) : option (string * string) :=
  match s with
  | EmptyString => None
  | String c rest => if is_alpha c then scheme_state (str1 (lower c)) rest else None
  end.

Definition is_special (scheme : string) : bool :=
  existsb (String.eqb scheme) ["ftp"; "file"; "http"; "https"; "ws"; "wss"].

Definition is_slash (special : bool) (c : ascii) : bool :=
  ascii_is 47 c || (special && ascii_is 92 c).

(** what ends the authority, the host and the port *)
Definition ends_authority (special : bool) (c : ascii) : bool :=
  is_slash special c || ascii_is 63 c || ascii_is 35 c.

Definition percent_encode (c : ascii) : string :=
  let n := code c in
  "%" ++ str1 (upper_hex_digit (n / 16)) ++ str1 (upper_hex_digit (n mod 16)).

Definition in_c0_control_set (c : ascii) : bool :=
  let n := code c in Nat.ltb n 32 || Nat.ltb 126 n.

(** the path percent-encode set: C0 controls, everything above [~], and
    space, double quote, [#], [<], [>], [?], [^], backquote, [{], [}].
    The caret is in the set of the current URL Standard; run times that
    follow an earlier text leave it as it is. *)
Definition in_path_set (c : ascii) : bool :=
  in_c0_control_set c
  || existsb (fun n => ascii_is n c) [32; 34; 35; 60; 62; 63; 94; 96; 123; 125].

Definition forbidden_host_code_point (c : ascii) : bool :=
  existsb (fun n => ascii_is n c)
    [0; 9; 10; 13; 32; 35; 47; 58; 60; 62; 63; 64; 91; 92; 93; 94; 124].

Definition last_char_is (n : nat) (s : string) : bool :=
  match rev_string EmptyString s with
  | String c _ => ascii_is n c
  | EmptyString => false
  end.

Definition drop_last (s : string) : string :=
  match rev_string EmptyString s with
  | String _ r => rev_string EmptyString r
  | EmptyString => EmptyString
  end.

Section URL.
Context {HP : HostParser}.

(** The host parser, as far as it can fail. *)
Definition host_parses (special : bool) (input : string) : bool :=
  match input with
  | String c inner =>
      if ascii_is 91 c then last_char_is 93 inner && IPv6_parses (drop_last inner)
      else if special then domain_parses input
      else forall_string (fun x => negb (forbidden_host_code_point x)) input
  | EmptyString => if special then domain_parses input else true
  end.

(** host state up to a colon outside brackets: the host and, after a colon,
    the port text *)
Fixpoint split_host (inside_brackets : bool) (buffer s : string) : string * option string :=
  match s with
  | EmptyString => (buffer, None)
  | String c rest =>
      if ascii_is 58 c && negb inside_brackets then (buffer, Some rest)
      else
        split_host
          (if ascii_is 91 c then true else if ascii_is 93 c then false else inside_brackets)
          (buffer ++ str1 c) rest
  end.

Fixpoint decimal (acc : N) (s : string) : N :=
  match s with
  | EmptyString => acc
  | String c rest => decimal (acc * 10 + N.of_nat (code c - 48)) rest
  end.

(** port state *)
Definition port_parses (buffer : string) : bool :=
  forall_string is_digit buffer && N.leb (decimal 0 buffer) 65535.

(** host state and port state over the text between the credentials and the
    end of the authority *)
Definition host_state (special : bool) (hostport : string) : bool :=
  match split_host false EmptyString hostport with
  | (host, Some port) =>
      negb (is_empty host) && host_parses special host && port_parses port
  | (host, None) =>
      negb (special && is_empty host) && host_parses special host
  end.

(** What follows the last [@] (the credentials end there), or everything. *)
Fixpoint after_last_at (s : string) : option string :=
  match s with
  | EmptyString => None
  | String c rest =>
      match after_last_at rest with
      | Some t => Some t
      | None => if ascii_is 64 c then Some rest else None
      end
  end.

(** authority state: what is left of the input at the end of the authority *)
Definition authority_state (special : bool) (s : string) : option string :=
  let (authority, rest) := break (ends_authority special) s in
  match after_last_at authority with
  | Some hostport =>
      if is_empty hostport then None
      else if host_state special hostport then Some rest else None
  | None => if host_state special authority then Some rest else None
  end.

Definition is_single_dot (buffer : string) : bool :=
  let b := lower_string buffer in String.eqb b "." || String.eqb b "%2e".

Definition is_double_dot (buffer : string) : bool :=
  let b := lower_string buffer in
  existsb (String.eqb b) [".."; ".%2e"; "%2e."; "%2e%2e"].

Definition is_windows_drive_letter (buffer : string) : bool :=
  match buffer with
  | String a (String b EmptyString) => is_alpha a && (ascii_is 58 b || ascii_is 124 b)
  | _ => false
  end.

Definition is_normalized_drive_letter (buffer : string) : bool :=
  match buffer with
  | String a (String b EmptyString) => is_alpha a && ascii_is 58 b
  | _ => false
  end.

Definition shorten (is_file : bool) (path : list string) : list string :=
  match path with
  | [seg] => if is_file && is_normalized_drive_letter seg then path else []
  | _ => removelast path
  end.

(** path state at the end of a segment; [slash] tells whether a slash ended it *)
Definition end_segment (is_file slash : bool) (path : list string) (buffer : string)
  : list string :=
  if is_double_dot buffer then
    let p := shorten is_file path in
    if slash then p else (p ++ [EmptyString])%list
  else if is_single_dot buffer then
    if slash then path else (path ++ [EmptyString])%list
  else
    match path, buffer with
    | [], String a (String _ EmptyString) =>
        if is_file && is_windows_drive_letter buffer then [String a ":"] else [buffer]
    | _, _ => (path ++ [buffer])%list
    end.

(** path state: the segments of the path; a [?] or [#] ends it *)
Fixpoint path_state (special is_file : bool) (path : list string) (buffer s : string)
  : list string :=
  match s with
  | EmptyString => end_segment is_file false path buffer
  | String c rest =>
      if is_slash special c then
        path_state special is_file (end_segment is_file true path buffer) EmptyString rest
      else if ascii_is 63 c || ascii_is 35 c then end_segment is_file false path buffer
      else
        path_state special is_file path
          (buffer ++ (if in_path_set c then percent_encode c else str1 c)) rest
  end.

(** path start state *)
Definition path_start_state (special is_file : bool) (s : string) : list string :=
  match s with
  | EmptyString => if special then path_state special is_file [] EmptyString s else []
  | String c rest =>
      if special then
        path_state special is_file [] EmptyString (if is_slash true c then rest else s)
      else if ascii_is 63 c || ascii_is 35 c then []
      else path_state special is_file [] EmptyString (if ascii_is 47 c then rest else s)
  end.

(** opaque path state. A space before [?] or [#] is escaped as the
    current URL Standard says; run times that follow an earlier text keep
    it. *)
Fixpoint opaque_path_state (s : string) : string :=
  match s with
  | EmptyString => EmptyString
  | String c rest =>
      if ascii_is 63 c || ascii_is 35 c then EmptyString
      else if ascii_is 32 c then
        match rest with
        | String d _ =>
            (if ascii_is 63 d || ascii_is 35 d then "%20" else " ") ++ opaque_path_state rest
        | EmptyString => " "
        end
      else (if in_c0_control_set c then percent_encode c else str1 c) ++ opaque_path_state rest
  end.

Definition serialize_path (path : list string) : string :=
  String.concat EmptyString (map (fun seg => "/" ++ seg) path).

(** file host state, after [file://] *)
Definition file_host_state (s : string) : option string :=
  let (buffer, rest) := break (ends_authority true) s in
  if is_windows_drive_letter buffer then
    Some (serialize_path (path_state true true [] buffer rest))
  else if is_empty buffer then Some (serialize_path (path_start_state true true rest))
  else if host_parses true buffer then Some (serialize_path (path_start_state true true rest))
  else None.

(** file state and file slash state *)
Definition file_state (s : string) : option string :=
  match s with
  | String c rest =>
      if is_slash true c then
        match rest with
        | String d rest' =>
            if is_slash true d then file_host_state rest'
            else Some (serialize_path (path_state true true [] EmptyString rest))
        | EmptyString => Some (serialize_path (path_state true true [] EmptyString rest))
        end
      else Some (serialize_path (path_state true true [] EmptyString s))
  | EmptyString => Some (serialize_path (path_state true true [] EmptyString s))
  end.

(** [new URL(input).pathname] *)
Definition URL_pathname (input : string) : option string :=
  match scheme_start_state (url_input input) with
  | None => None
  | Some (scheme, rest) =>
      if String.eqb scheme "file" then file_state rest
      else if is_special scheme then
        (* special authority slashes, special authority ignore slashes *)
        match authority_state true (drop_while (is_slash true) rest) with
        | Some rest' => Some (serialize_path (path_start_state true false rest'))
        | None => None
        end
      else
        match rest with
        | String c rest1 =>
            if ascii_is 47 c then
              (* path or authority state *)
              match rest1 with
              | String d rest2 =>
                  if ascii_is 47 d then
                    match authority_state false rest2 with
                    | Some rest' => Some (serialize_path (path_start_state false false rest'))
                    | None => None
                    end
                  else Some (serialize_path (path_state false false [] EmptyString rest1))
              | EmptyString => Some (serialize_path (path_state false false [] EmptyString rest1))
              end
            else Some (opaque_path_state rest)
        | EmptyString => Some (opaque_path_state rest)
        end
  end.

End URL.

(* ------------------------------------------------------------------ *)
(** ** The server *)

Section Server.
Context {JSN : JSNumber} {HP : HostParser}.

(** *** Tasks and the resource handlers *)

Record Task := mkTask { id : string; title : string; description : string }.

(** [const tasks]: the own properties of the object literal, in order. *)
Definition tasks : list (string * Task) :=
  [ ("1", mkTask "1" "First Task" "This is task 1");
    ("2", mkTask "2" "Second Task" "This is task 2") ].

(** A task as the JavaScript object it is. *)
Definition task_object (t : Task) : value :=
  VObj [("id", VStr (id t)); ("title", VStr (title t)); ("description", VStr (description t))].

Record resource := mkResource {
  resource_uri : string;
  resource_mimeType : string;
  resource_name : string;
  resource_description : string
}.

Definition task_uri (task_id : string) : string := "task:///" ++ task_id.

(** ListResourcesRequestSchema handler *)
Definition ListResources (store : list (string * Task)) : list resource :=
  map (fun task =>
         mkResource (task_uri (id task)) "application/json" (title task)
           ("Task: " ++ title task))
      (map snd store).

(** The properties every object literal inherits from [Object.prototype]:
    functions, and the accessor [__proto__], which yields the prototype. *)
Definition Object_prototype_functions : list string :=
  [ "constructor"; "hasOwnProperty"; "isPrototypeOf"; "propertyIsEnumerable";
    "toLocaleString"; "toString"; "valueOf";
    "__defineGetter__"; "__defineSetter__"; "__lookupGetter__"; "__lookupSetter__" ].

(** What [tasks[id]] evaluates to. *)
Inductive slot :=
| OwnTask (t : Task)
| InheritedFunction (name : string)
| ObjectPrototype
| Undefined.

Fixpoint own_task (store : list (string * Task)) (key : string) : option Task :=
  match store with
  | [] => None
  | (k, t) :: rest => if String.eqb k key then Some t else own_task rest key
  end.

(** [tasks[key]]: an own property, else one found on the prototype *)
Definition lookup (store : list (string * Task)) (key : string) : slot :=
  match own_task store key with
  | Some t => OwnTask t
  | None =>
      if String.eqb key "__proto__" then ObjectPrototype
      else if existsb (String.eqb key) Object_prototype_functions then InheritedFunction key
      else Undefined
  end.

Definition slot_truthy (s : slot) : bool :=
  match s with Undefined => false | _ => true end.

(** [JSON.stringify(task, null, 2)]: a function has no JSON text, and
    [Object.prototype] has no enumerable property. *)
Definition slot_json (s : slot) : option string :=
  match s with
  | OwnTask t => JSON_stringify_2 (task_object t)
  | InheritedFunction _ => None
  | ObjectPrototype => JSON_stringify_2 (VObj [])
  | Undefined => None
  end.

Record resource_contents := mkContents {
  contents_uri : string;
  contents_mimeType : string;
  contents_text : option string
}.

(** [url.pathname.replace(/^\//, '')]: one leading slash goes, if there. *)
Definition strip_leading_slash (pathname : string) : string :=
  match pathname with
  | String c rest => if ascii_is 47 c then rest else pathname
  | EmptyString => pathname
  end.

Definition invalid_url : js_error := TypeError "Invalid URL".

Definition new_URL_pathname (uri : string) : outcome string :=
  match URL_pathname uri with
  | Some pathname => Return pathname
  | None => Throw invalid_url
  end.

Definition not_found (task_id : string) : js_error :=
  Error ("Task " ++ task_id ++ " not found").

(** ReadResourceRequestSchema handler *)
Definition ReadResource (store : list (string * Task)) (uri : string)
  : outcome (list resource_contents) :=
  (pathname <- new_URL_pathname uri ;;
   let task_id := strip_leading_slash pathname in
   let task := lookup store task_id in
   if negb (slot_truthy task) then Throw (not_found task_id)
   else Return [mkContents uri "application/json" (slot_json task)])%outcome.

(** *** The tool registry *)

Record tool := mkTool { name : string; tool_description : string; inputSchema : value }.

Definition property (type description : string) : value :=
  VObj [("type", VStr type); ("description", VStr description)].

Definition object_schema (properties : list (string * value)) (required : list string)
  : value :=
  VObj [("type", VStr "object"); ("properties", VObj properties);
        ("required", VArr (map VStr required))].

(** ListToolsRequestSchema handler *)
Definition ListTools : list tool :=
  [ mkTool "create_note" "Create a new note"
      (object_schema
         [ ("title", property "string" "Title of the note");
           ("content", property "string" "Text content of the note") ]
         ["title"; "content"]);
    mkTool "memory_write" "Write memory chunks to Halcyon"
      (object_schema
         [ ("source", property "string" "Source identifier");
           ("task_id", property "string" "Task identifier");
           ("payload",
            VObj [ ("type", VStr "object");
                   ("properties",
                    VObj [ ("text", property "string" "Text content of the memory chunk");
                           ("tag", property "string" "Tag for the memory chunk");
                           ("timestamp",
                            VObj [ ("type", VStr "string"); ("format", VStr "date-time");
                                   ("description", VStr "Timestamp of the memory chunk") ]) ]);
                   ("required", VArr [VStr "text"; VStr "tag"; VStr "timestamp"]) ]) ]
         ["source"; "task_id"; "payload"]);
    mkTool "list_tools" "List available tools"
      (VObj [("type", VStr "object"); ("properties", VObj [])]);
    mkTool "rag_query" "Query the RAG system"
      (object_schema
         [ ("collection_name", property "string" "Name of the collection to query");
           ("query", property "string" "Query text");
           ("limit", property "integer" "Maximum number of results to return");
           ("embedding_model", property "string" "Embedding model to use");
           ("timeout", property "integer" "Timeout in seconds") ]
         ["collection_name"; "query"]);
    mkTool "upload_documents" "Upload documents to the RAG system"
      (object_schema
         [ ("collection_name", property "string" "Name of the collection to upload to");
           ("texts",
            VObj [ ("type", VStr "array"); ("items", VObj [("type", VStr "string")]);
                   ("description", VStr "List of documents to upload") ]);
           ("metadata",
            VObj [ ("type", VStr "array"); ("items", VObj [("type", VStr "object")]);
                   ("description", VStr "Optional metadata for the documents") ]);
           ("source", property "string" "Optional source information for the documents");
           ("embedding_model", property "string" "Embedding model to use") ]
         ["collection_name"; "texts"]) ].

(** *** The upstream service *)

Record response := mkResponse {
  status : nat;
  statusText : string;
  (** [await response.json()]: the parsed body, or the parser's exception *)
  json : outcome value
}.

(** [response.ok] *)
Definition ok (r : response) : bool := Nat.leb 200 (status r) && Nat.leb (status r) 299.

(** How the network answers a request: a response, or the exception [fetch]
    rejects with. *)
Definition upstream : Type := fetch_request -> outcome response.

Definition fetch (up : upstream) (req : fetch_request) : eff response :=
  ([Fetch req], up req).

Definition post_json (url : string) (body : value) : fetch_request :=
  mkFetch url "POST" [("Content-Type", "application/json")] (JSON_stringify body).

(** *** The tool dispatcher *)

Record content_block := mkBlock { block_type : string; block_text : option string }.

Definition text_block (s : string) : content_block := mkBlock "text" (Some s).

(** [x ? Number(x) : undefined] *)
Definition optional_number (x : value) : outcome value :=
  if ToBoolean x then (n <- ToNumber x ;; Return (VNum n))%outcome
  else Return VUndefined.

Definition create_note (arguments : option (list (string * value)))
  : eff (list content_block) :=
  (title <- lift (ToString (arg arguments "title")) ;;
   content <- lift (ToString (arg arguments "content")) ;;
   if is_empty title || is_empty content then
     throw (Error "Title and content are required")
   else
     emit (ConsoleLog ("Created note: " ++ title)) ;;
     ret [text_block ("Created note: " ++ title)])%eff.

(** The array literal of the [list_tools] case. *)
Definition list_tools_names : list string :=
  ["create_note"; "memory_write"; "list_tools"; "rag_query"; "upload_documents"].

Definition list_tools : eff (list content_block) :=
  ret [mkBlock "text" (JSON_stringify_2 (VArr (map VStr list_tools_names)))].

(** Everything thrown here is an [Error] instance, so the handler's branch
    for other thrown values is never taken. *)
Definition memory_write (arguments : option (list (string * value)))
  : eff (list content_block) :=
  try_catch
    (source <- lift (ToString (arg arguments "source")) ;;
     task_id <- lift (ToString (arg arguments "task_id")) ;;
     let payload := arg arguments "payload" in
     if is_empty source || is_empty task_id || negb (ToBoolean payload) then
       throw (Error "Source, task_id, and payload are required")
     else
       text <- lift (ToString (get payload "text")) ;;
       emit (ConsoleLog ("Received memory chunk from " ++ source ++ " for task "
                           ++ task_id ++ ": " ++ text)) ;;
       ret [text_block ("Processed memory chunk from " ++ source ++ " for task "
                          ++ task_id)])%eff
    (fun error =>
       (emit (ConsoleError "Error processing memory_write:" error) ;;
        throw (Error ("Failed to process memory_write: " ++ err_message error)))%eff).

(** The statements of the [rag_query] case before [fetch]: the coercions of
    the arguments, and the request built from them. *)
Definition rag_query_request (arguments : option (list (string * value)))
  : outcome fetch_request :=
  (collection_name <- ToString (arg arguments "collection_name") ;;
   query <- ToString (arg arguments "query") ;;
   limit <- optional_number (arg arguments "limit") ;;
   embedding_model <- ToString (arg arguments "embedding_model") ;;
   timeout <- optional_number (arg arguments "timeout") ;;
   Return
     (post_json "http://localhost:8000/rag/query"
        (VObj [ ("collection_name", VStr collection_name); ("query", VStr query);
                ("limit", limit); ("embedding_model", VStr embedding_model);
                ("timeout", timeout) ])))%outcome.

Definition rag_query (up : upstream) (arguments : option (list (string * value)))
  : eff (list content_block) :=
  (request <- lift (rag_query_request arguments) ;;
   response <- fetch up request ;;
   if negb (ok response) then
     throw (Error ("RAG query failed: " ++ statusText response))
   else
     result <- lift (json response) ;;
     ret [mkBlock "text" (JSON_stringify_2 result)])%eff.

(** The statements of the [upload_documents] case before [fetch]. *)
Definition upload_documents_request (arguments : option (list (string * value)))
  : outcome fetch_request :=
  (collection_name <- ToString (arg arguments "collection_name") ;;
   let texts := arg arguments "texts" in
   let metadata := arg arguments "metadata" in
   source <- ToString (arg arguments "source") ;;
   embedding_model <- ToString (arg arguments "embedding_model") ;;
   Return
     (post_json "http://localhost:8000/rag/documents"
        (VObj [ ("collection_name", VStr collection_name); ("texts", texts);
                ("metadata", metadata); ("source", VStr source);
                ("embedding_model", VStr embedding_model) ])))%outcome.

Definition upload_documents (up : upstream) (arguments : option (list (string * value)))
  : eff (list content_block) :=
  (request <- lift (upload_documents_request arguments) ;;
   response <- fetch up request ;;
   if negb (ok response) then
     throw (Error ("Document upload failed: " ++ statusText response))
   else
     result <- lift (json response) ;;
     ret [mkBlock "text" (JSON_stringify_2 result)])%eff.

(** CallToolRequestSchema handler: the [switch] on [request.params.name] *)
Definition CallTool (up : upstream) (tool_name : string)
    (arguments : option (list (string * value))) : eff (list content_block) :=
  if String.eqb tool_name "create_note" then create_note arguments
  else if String.eqb tool_name "list_tools" then list_tools
  else if String.eqb tool_name "memory_write" then memory_write arguments
  else if String.eqb tool_name "rag_query" then rag_query up arguments
  else if String.eqb tool_name "upload_documents" then upload_documents up arguments
  else throw (Error "Unknown tool").

(** *** Requests in sequence

    The four handlers registered on the server. The only data they share is
    [tasks]; the server is its store, and a request leaves a store behind. *)

Inductive request :=
| ListResourcesRequest
| ReadResourceRequest (uri : string)
| ListToolsRequest
| CallToolRequest (tool_name : string) (arguments : option (list (string * value))).

Inductive result :=
| Resources (resources : list resource)
| Contents (contents : list resource_contents)
| Tools (tools : list tool)
| Content (content : list content_block).

Definition handle (store : list (string * Task)) (up : upstream) (req : request)
  : list (string * Task) * eff result :=
  match req with
  | ListResourcesRequest => (store, ret (Resources (ListResources store)))
  | ReadResourceRequest uri =>
      (store, (c <- lift (ReadResource store uri) ;; ret (Contents c))%eff)
  | ListToolsRequest => (store, ret (Tools ListTools))
  | CallToolRequest tool_name arguments =>
      (store, (c <- CallTool up tool_name arguments ;; ret (Content c))%eff)
  end.

(** The store after a sequence of requests, each with the network it met. *)
Fixpoint serve (store : list (string * Task)) (reqs : list (upstream * request))
  : list (string * Task) :=
  match reqs with
  | [] => store
  | (up, req) :: rest => serve (fst (handle store up req)) rest
  end.

End Server.

(* ------------------------------------------------------------------ *)
(** ** The error kinds of the specification

    The handlers throw plain [Error] objects; the specification names kinds.
    A kind is recognised by the message the source gives it. An exception of
    the run time (a [TypeError] of a conversion, of the URL parser or of
    [fetch], a [SyntaxError] of the body parser) carries no such label. *)

Inductive error_kind :=
| NotFound
| UnknownTool
| InvalidArguments
| UpstreamFailure
| Unlabelled.

Definition has_suffix (suffix s : string) : bool :=
  starts_with (rev_string EmptyString suffix) (rev_string EmptyString s).

Definition kind_of (e : js_error) : error_kind :=
  match err_class e with
  | ErrorC =>
      let m := err_message e in
      if String.eqb m "Unknown tool" then UnknownTool
      else if String.eqb m "Title and content are required"
              || String.eqb m
                   "Failed to process memory_write: Source, task_id, and payload are required"
      then InvalidArguments
      else if starts_with "RAG query failed: " m || starts_with "Document upload failed: " m
      then UpstreamFailure
      else if starts_with "Task " m && has_suffix " not found" m then NotFound
      else Unlabelled
  | _ => Unlabelled
  end.

(** A network that answers every request alike. *)
Definition always {JSN : JSNumber} (r : outcome (@response JSN)) : @upstream JSN :=
  fun _ => r.

(** No service listens: [fetch] rejects. *)
Definition no_network : @upstream IntegerNumbers :=
  always (Throw (TypeError "fetch failed")).

(** The service answers every request with status 500 and no JSON body. *)
Definition failing_service : @upstream IntegerNumbers :=
  always (Return (mkResponse 500 "Internal Server Error"
                    (Throw (SyntaxError "Unexpected end of JSON input")))).


(** *** Predicates on identifiers and request text

    A character the URL parser copies into a path segment as it is and that
    does not end the segment; an identifier made of such characters that is
    no dot segment; a character other than the colon. *)

Definition plain_char (c : ascii) : bool :=
  negb (in_path_set c) && negb (ascii_is 47 c).

Definition plain_identifier (task_id : string) : bool :=
  forall_string plain_char task_id
  && negb (is_single_dot task_id) && negb (is_double_dot task_id).

Definition no_colon (c : ascii) : bool := negb (ascii_is 58 c).

(** The characters a URI may be written with (RFC 3986: unreserved,
    reserved, and the percent sign of an escape). A text with any other
    character in it, a space for one, is no syntactically valid URI. *)
Definition uri_character (c : ascii) : bool :=
  is_alpha c || is_digit c
  || existsb (fun n => ascii_is n c)
       [ 45; 46; 95; 126;                             (* unreserved marks *)
         58; 47; 63; 35; 91; 93; 64;                  (* general delimiters *)
         33; 36; 38; 39; 40; 41; 42; 43; 44; 59; 61;  (* sub-delimiters *)
         37 ].                                        (* percent sign *)

(** A member of a JSON object printed without gap, key and text quoted. *)
Definition quoted_member (key text : string) : string :=
  QuoteJSONString key ++ ":" ++ QuoteJSONString text.

(** The service answers every request with status 200 and an empty result
    list. *)
Definition answering_service : @upstream IntegerNumbers :=
  always (Return (mkResponse 200 "OK" (Return (VObj [("results", VArr [])])))).

(* ------------------------------------------------------------------ *)
(** * Properties *)

Section Properties.
Context {JSN : JSNumber} {HP : HostParser}.

(** ** The registry and the dispatcher *)

Lemma ListTools_names :
  map name ListTools
  = ["create_note"; "memory_write"; "list_tools"; "rag_query"; "upload_documents"].
Proof. reflexivity. Qed.

Lemma eqb_false_of_not_in (x y : string) (l : list string) :
  ~ In x l -> In y l -> String.eqb x y = false.
Proof.
  intros Hx Hy. apply String.eqb_neq. intros ->. exact (Hx Hy).
Qed.

(** C4: a tool name outside the registry's five names ends in the
    [Unknown tool] error, with an empty trace: nothing is logged and no
    request goes out. *)
Theorem unknown_tool_rejected (up : upstream) (tool_name : string)
    (arguments : option (list (string * value))) :
  ~ In tool_name (map name ListTools) ->
  CallTool up tool_name arguments = ([], Throw (Error "Unknown tool"))
  /\ kind_of (Error "Unknown tool") = UnknownTool.
Proof.
  rewrite ListTools_names. intros Hout. split; [| reflexivity].
  unfold CallTool.
  repeat match goal with
         | |- context [String.eqb tool_name ?lit] =>
             rewrite (eqb_false_of_not_in tool_name lit _ Hout) by (simpl; tauto)
         end.
  reflexivity.
Qed.

(** C8: the names the [list_tools] tool prints are the names of the
    list-tools handler, one for one and in its order; the text block is
    [JSON.stringify] of that list with indentation 2. *)
Theorem list_tools_tool_matches_registry (up : upstream)
    (arguments : option (list (string * value))) :
  list_tools_names = map name ListTools
  /\ CallTool up "list_tools" arguments
     = ([], Return [mkBlock "text" (JSON_stringify_2 (VArr (map VStr (map name ListTools))))]).
Proof.
  assert (Hnames : list_tools_names = map name ListTools)
    by (rewrite ListTools_names; reflexivity).
  split; [exact Hnames |].
  rewrite <- Hnames. reflexivity.
Qed.

Lemma serve_keeps_store (reqs : list (upstream * request)) :
  forall store, serve store reqs = store.
Proof.
  induction reqs as [| [up req] rest IH]; intros store; simpl.
  - reflexivity.
  - rewrite IH. destruct req; reflexivity.
Qed.

(** C9: after any sequence of earlier requests, whatever the network
    answered them, a list-tools request returns the same five tools in the
    same order, leaves no trace and leaves the server as it was. Each tool
    has its name, a description and an input schema of type [object]. *)
Theorem list_tools_fixed (reqs : list (upstream * request)) (up : upstream) :
  handle (serve tasks reqs) up ListToolsRequest = (tasks, ([], Return (Tools ListTools)))
  /\ map name ListTools
     = ["create_note"; "memory_write"; "list_tools"; "rag_query"; "upload_documents"]
  /\ Forall (fun t => is_empty (tool_description t) = false
                      /\ get (inputSchema t) "type" = VStr "object") ListTools.
Proof.
  rewrite serve_keeps_store.
  split; [reflexivity | split; [apply ListTools_names |]].
  repeat constructor.
Qed.

(** A list-resources request meets the same catalog, in the same order,
    after any sequence of earlier requests. *)
Theorem list_resources_stable (reqs : list (upstream * request)) (up : upstream) :
  handle (serve tasks reqs) up ListResourcesRequest
  = (tasks, ([], Return (Resources (ListResources tasks))))
  /\ map resource_uri (ListResources tasks) = ["task:///1"; "task:///2"].
Proof.
  rewrite serve_keeps_store. split; reflexivity.
Qed.


(** ** create_note *)

Lemma create_note_A_B (up : upstream) :
  CallTool up "create_note" (Some [("title", VStr "A"); ("content", VStr "B")])
  = ([ConsoleLog "Created note: A"], Return [text_block "Created note: A"]).
Proof. reflexivity. Qed.

(** The guard of [create_note] looks at the coerced strings: it throws
    exactly when one of them is empty, and otherwise acknowledges the note
    under the coerced title. *)
Theorem create_note_guard (up : upstream) (arguments : option (list (string * value)))
    (t c : string) :
  ToString (arg arguments "title") = Return t ->
  ToString (arg arguments "content") = Return c ->
  CallTool up "create_note" arguments
  = if is_empty t || is_empty c
    then ([], Throw (Error "Title and content are required"))
    else ([ConsoleLog ("Created note: " ++ t)], Return [text_block ("Created note: " ++ t)]).
Proof.
  intros Ht Hc. unfold CallTool, create_note. simpl String.eqb. cbv iota.
  rewrite Ht, Hc. simpl.
  destruct (is_empty t || is_empty c); reflexivity.
Qed.

(** C1: with title "A" and content "B" the note is acknowledged with
    "Created note: A"; with the title left out, or the content, or the whole
    argument bag, the call is acknowledged all the same: [String(undefined)]
    is the non-empty text "undefined", so the guard lets it through. *)
Theorem create_note_missing_field_accepted (up : upstream) :
  CallTool up "create_note" (Some [("title", VStr "A"); ("content", VStr "B")])
  = ([ConsoleLog "Created note: A"], Return [text_block "Created note: A"])
  /\ CallTool up "create_note" (Some [("content", VStr "B")])
     = ([ConsoleLog "Created note: undefined"],
        Return [text_block "Created note: undefined"])
  /\ CallTool up "create_note" (Some [("title", VStr "A")])
     = ([ConsoleLog "Created note: A"], Return [text_block "Created note: A"])
  /\ CallTool up "create_note" None
     = ([ConsoleLog "Created note: undefined"],
        Return [text_block "Created note: undefined"]).
Proof.
  split; [apply create_note_A_B |].
  repeat split.
Qed.

(** ** memory_write *)

(** C2, as the code has it: with [source] and [task_id] given as strings, the
    call is rejected exactly when one of the two is empty or [payload] is
    falsy (left out, [null], [false], zero, the empty string), with one
    message that names the three top-level fields together; [text], [tag] and
    [timestamp] inside the payload are not looked at, beyond printing [text]
    in the log line. *)
Theorem memory_write_checks_top_level_only (up : upstream)
    (arguments : option (list (string * value))) (s t : string) :
  arg arguments "source" = VStr s ->
  arg arguments "task_id" = VStr t ->
  let payload := arg arguments "payload" in
  let rejected := is_empty s || is_empty t || negb (ToBoolean payload) in
  (rejected = true ->
   CallTool up "memory_write" arguments
   = ([ConsoleError "Error processing memory_write:"
         (Error "Source, task_id, and payload are required")],
      Throw (Error
        "Failed to process memory_write: Source, task_id, and payload are required")))
  /\ (rejected = false ->
      forall text, ToString (get payload "text") = Return text ->
      CallTool up "memory_write" arguments
      = ([ConsoleLog ("Received memory chunk from " ++ s ++ " for task " ++ t
                        ++ ": " ++ text)],
         Return [text_block ("Processed memory chunk from " ++ s ++ " for task " ++ t)]))
  /\ kind_of (Error
        "Failed to process memory_write: Source, task_id, and payload are required")
     = InvalidArguments.
Proof.
  intros Hs Ht payload rejected.
  assert (Hcall : CallTool up "memory_write" arguments = memory_write arguments)
    by reflexivity.
  rewrite Hcall. unfold memory_write. rewrite Hs, Ht.
  fold payload. simpl ToString. cbn [lift bind].
  fold rejected.
  split; [| split].
  - intros ->. reflexivity.
  - intros -> text Htext. cbn [try_catch bind lift]. rewrite Htext. reflexivity.
  - reflexivity.
Qed.

(** ** The delegating tools *)

(** C3: the request [rag_query] sends for a call that gives only the two
    required arguments, and the one [upload_documents] sends likewise.
    [limit], [timeout] and [metadata] are left out of the body; the optional
    [embedding_model] and [source] are in it, as the text "undefined". *)
Theorem optional_strings_sent_as_undefined :
  rag_query_request (Some [("collection_name", VStr "docs"); ("query", VStr "q")])
  = Return
      (mkFetch "http://localhost:8000/rag/query" "POST"
         [("Content-Type", "application/json")]
         (Some ("{" ++ member "collection_name" "docs" ++ "," ++ member "query" "q" ++ ","
                  ++ member "embedding_model" "undefined" ++ "}")))
  /\ upload_documents_request
       (Some [("collection_name", VStr "docs"); ("texts", VArr [VStr "a"])])
     = Return
         (mkFetch "http://localhost:8000/rag/documents" "POST"
            [("Content-Type", "application/json")]
            (Some ("{" ++ member "collection_name" "docs" ++ ","
                     ++ dq "texts" ++ ":[" ++ dq "a" ++ "],"
                     ++ member "source" "undefined" ++ ","
                     ++ member "embedding_model" "undefined" ++ "}"))).
Proof. split; reflexivity. Qed.

Lemma kind_of_rag_query_failed (status_text : string) :
  kind_of (Error ("RAG query failed: " ++ status_text)) = UpstreamFailure.
Proof. reflexivity. Qed.

Lemma rag_query_sends_at_most_once (up : upstream)
    (arguments : option (list (string * value))) :
  match rag_query_request arguments with
  | Throw e => rag_query up arguments = ([], Throw e)
  | Return request =>
      exists o, rag_query up arguments = ([Fetch request], o)
                /\ forall r, up request = Return r -> ok r = false ->
                             o = Throw (Error ("RAG query failed: " ++ statusText r))
  end.
Proof.
  unfold rag_query. destruct (rag_query_request arguments) as [request | e]; [| reflexivity].
  cbn [lift bind fetch].
  destruct (up request) as [r | e] eqn:Hup.
  - destruct (ok r) eqn:Hok; cbn [negb].
    + destruct (json r) as [v | e]; cbn; eexists; (split; [reflexivity |]);
        intros r' Hr'; inversion Hr'; subst r'; congruence.
    + cbn. eexists. split; [reflexivity |]. intros r' Hr' _. inversion Hr'. reflexivity.
  - eexists. split; [reflexivity |]. intros r' Hr'. discriminate.
Qed.

(** C6: when [rag_query] has sent a request and the service answered it
    with a status outside 200..299, the call sent that one request and no
    other, and ends in the error "RAG query failed: " followed by the status
    text of the response. *)
Theorem rag_query_upstream_failure (up : upstream)
    (arguments : option (list (string * value))) (request : fetch_request) (r : response) :
  In (Fetch request) (fst (CallTool up "rag_query" arguments)) ->
  up request = Return r ->
  ok r = false ->
  CallTool up "rag_query" arguments
  = ([Fetch request], Throw (Error ("RAG query failed: " ++ statusText r)))
  /\ fetches (fst (CallTool up "rag_query" arguments)) = [request]
  /\ kind_of (Error ("RAG query failed: " ++ statusText r)) = UpstreamFailure.
Proof.
  assert (Hcall : CallTool up "rag_query" arguments = rag_query up arguments)
    by reflexivity.
  rewrite Hcall. clear Hcall.
  pose proof (rag_query_sends_at_most_once up arguments) as Hsend.
  destruct (rag_query_request arguments) as [request0 | e].
  - destruct Hsend as [o [Hrun Hfail]]. rewrite Hrun. cbn [fst].
    intros [Hin | []] Hup Hok. inversion Hin; subst request0.
    rewrite (Hfail r Hup Hok). split; [reflexivity |]. split; [reflexivity |].
    apply kind_of_rag_query_failed.
  - rewrite Hsend. intros [].
Qed.

(** ** Resources *)

(** C7: [constructor] is no key of the catalog, and the URI of that
    identifier is well formed; the read finds the function every object
    inherits under that name and returns contents with no text, where an
    absent identifier should end in the not-found error. *)
Theorem inherited_name_is_found :
  own_task tasks "constructor" = None
  /\ URL_pathname "task:///constructor" = Some "/constructor"
  /\ ReadResource tasks "task:///constructor"
     = Return [mkContents "task:///constructor" "application/json" None].
Proof. repeat split. Qed.

(** An identifier that is neither in the catalog nor a property of
    [Object.prototype] is not found: the read throws the error that names
    the identifier. *)
Theorem absent_identifier_not_found (store : list (string * Task)) (uri pathname : string) :
  URL_pathname uri = Some pathname ->
  let task_id := strip_leading_slash pathname in
  own_task store task_id = None ->
  task_id <> "__proto__" ->
  ~ In task_id Object_prototype_functions ->
  ReadResource store uri = Throw (not_found task_id).
Proof.
  intros Hurl task_id Hown Hproto Hfun.
  unfold ReadResource, new_URL_pathname. rewrite Hurl. cbn [obind].
  fold task_id. unfold lookup. rewrite Hown.
  apply String.eqb_neq in Hproto. rewrite Hproto.
  destruct (existsb (String.eqb task_id) Object_prototype_functions) eqn:Hex.
  - apply existsb_exists in Hex. destruct Hex as [k [Hk Heq]].
    apply String.eqb_eq in Heq. subst k. contradiction.
  - reflexivity.
Qed.

(** C5: for each task of the catalog, the URI that list-resources gives it
    parses to a path from which stripping the slash recovers the task's
    identifier, and read-resource on that URI returns the JSON text of that
    very task, whose [id] field is the identifier. *)
Theorem resource_round_trip (key : string) (task : Task) :
  In (key, task) tasks ->
  In (task_uri key) (map resource_uri (ListResources tasks))
  /\ option_map strip_leading_slash (URL_pathname (task_uri key)) = Some key
  /\ ReadResource tasks (task_uri key)
     = Return [mkContents (task_uri key) "application/json"
                 (JSON_stringify_2 (task_object task))]
  /\ get (task_object task) "id" = VStr key.
Proof.
  intros Hin. simpl in Hin.
  destruct Hin as [Heq | [Heq | []]]; inversion Heq; subst key task; clear Heq.
  - repeat split. left. reflexivity.
  - repeat split. right. left. reflexivity.
Qed.

Lemma kind_of_invalid_url : kind_of invalid_url = Unlabelled.
Proof. reflexivity. Qed.

(** C10, as the code has it: a [uri] the URL parser rejects makes the handler
    throw the parser's [TypeError], whatever the catalog holds: the catalog
    is not consulted. That error is no not-found error. A [uri] the parser
    accepts reaches the lookup, also when the parser had to repair it; the
    key looked up is the path without its first slash, and only that one: a
    second slash stays in the key. *)
Theorem invalid_uri_fails_before_lookup (store : list (string * Task)) (uri : string) :
  URL_pathname uri = None ->
  ReadResource store uri = Throw invalid_url
  /\ err_class invalid_url = TypeErrorC
  /\ kind_of invalid_url <> NotFound
  /\ (forall task_id, invalid_url <> not_found task_id)
  /\ (forall uri' pathname, URL_pathname uri' = Some pathname ->
        ReadResource store uri'
        = let task_id := strip_leading_slash pathname in
          if slot_truthy (lookup store task_id)
          then Return [mkContents uri' "application/json" (slot_json (lookup store task_id))]
          else Throw (not_found task_id))
  /\ (forall rest, strip_leading_slash ("/" ++ rest) = rest).
Proof.
  intros Hurl. unfold ReadResource, new_URL_pathname.
  split; [rewrite Hurl; reflexivity |].
  split; [reflexivity |].
  split; [rewrite kind_of_invalid_url; discriminate |].
  split; [intros task_id; discriminate |].
  split; [| reflexivity].
  intros uri' pathname Hok. rewrite Hok. cbn [obind].
  destruct (slot_truthy (lookup store (strip_leading_slash pathname))); reflexivity.
Qed.

End Properties.

(* ------------------------------------------------------------------ *)
(** * Further properties of the handlers *)

Section FurtherProperties.
Context {JSN : JSNumber} {HP : HostParser}.

(** ** Text lemmas *)


Lemma string_app_assoc (a b c : string) : (a ++ b) ++ c = a ++ b ++ c.
Proof. induction a as [| x a IH]; simpl; [reflexivity | now rewrite IH]. Qed.

Lemma string_app_empty (s : string) : s ++ EmptyString = s.
Proof. induction s as [| x s IH]; simpl; [reflexivity | now rewrite IH]. Qed.

Lemma rev_string_acc (s acc : string) :
  rev_string acc s = rev_string EmptyString s ++ acc.
Proof.
  revert acc. induction s as [| c s IH]; intros acc; simpl.
  - reflexivity.
  - rewrite (IH (String c acc)), (IH (String c EmptyString)), string_app_assoc. reflexivity.
Qed.

Lemma rev_string_append (a b : string) :
  rev_string EmptyString (a ++ b) = rev_string EmptyString b ++ rev_string EmptyString a.
Proof.
  induction a as [| c a IH]; simpl.
  - now rewrite string_app_empty.
  - rewrite (rev_string_acc (a ++ b) (String c EmptyString)), IH,
      (rev_string_acc a (String c EmptyString)), string_app_assoc. reflexivity.
Qed.

Lemma rev_string_involutive (s : string) :
  rev_string EmptyString (rev_string EmptyString s) = s.
Proof.
  induction s as [| c s IH]; simpl.
  - reflexivity.
  - rewrite (rev_string_acc s (String c EmptyString)), rev_string_append, IH. reflexivity.
Qed.

Lemma forall_string_append (p : ascii -> bool) (a b : string) :
  forall_string p (a ++ b) = forall_string p a && forall_string p b.
Proof.
  induction a as [| c a IH]; simpl; [reflexivity |].
  rewrite IH. now rewrite andb_assoc.
Qed.

Lemma forall_string_rev (p : ascii -> bool) (s : string) :
  forall_string p (rev_string EmptyString s) = forall_string p s.
Proof.
  induction s as [| c s IH]; simpl; [reflexivity |].
  rewrite (rev_string_acc s (String c EmptyString)), forall_string_append, IH. simpl.
  rewrite andb_true_r. apply andb_comm.
Qed.

Lemma drop_while_none (p : ascii -> bool) (s : string) :
  forall_string (fun c => negb (p c)) s = true -> drop_while p s = s.
Proof.
  destruct s as [| c s]; simpl; [reflexivity |].
  intros H. apply andb_true_iff in H. destruct H as [Hc _].
  apply negb_true_iff in Hc. now rewrite Hc.
Qed.

Lemma filter_string_all (p : ascii -> bool) (s : string) :
  forall_string p s = true -> filter_string p s = s.
Proof.
  induction s as [| c s IH]; simpl; [reflexivity |].
  intros H. apply andb_true_iff in H. destruct H as [Hc Hs].
  rewrite Hc, (IH Hs). reflexivity.
Qed.

Lemma forall_string_impl (p q : ascii -> bool) (s : string) :
  (forall c, p c = true -> q c = true) ->
  forall_string p s = true -> forall_string q s = true.
Proof.
  intros Hpq. induction s as [| c s IH]; simpl; [reflexivity |].
  intros H. apply andb_true_iff in H. destruct H as [Hc Hs].
  rewrite (Hpq c Hc), (IH Hs). reflexivity.
Qed.

Lemma url_input_clean (s : string) :
  forall_string (fun c => negb (is_c0_or_space c)) s = true ->
  url_input s = s.
Proof.
  intros H. unfold url_input.
  rewrite (drop_while_none is_c0_or_space s H).
  rewrite drop_while_none by (rewrite forall_string_rev; exact H).
  rewrite rev_string_involutive.
  apply filter_string_all.
  revert H. apply forall_string_impl. intros c Hc.
  apply negb_true_iff in Hc. unfold is_c0_or_space in Hc.
  apply Nat.leb_gt in Hc.
  unfold is_tab_or_newline, ascii_is.
  destruct (Nat.eqb_spec (code c) 9); [lia |].
  destruct (Nat.eqb_spec (code c) 10); [lia |].
  destruct (Nat.eqb_spec (code c) 13); [lia |].
  reflexivity.
Qed.

Lemma plain_char_facts (c : ascii) :
  plain_char c = true ->
  is_c0_or_space c = false /\ is_slash false c = false
  /\ (ascii_is 63 c || ascii_is 35 c) = false /\ in_path_set c = false.
Proof.
  unfold plain_char. intros H. apply andb_true_iff in H. destruct H as [Hset Hslash].
  apply negb_true_iff in Hset. apply negb_true_iff in Hslash.
  assert (Hparts := Hset). unfold in_path_set in Hparts.
  apply orb_false_iff in Hparts. destruct Hparts as [Hc0 Hlist].
  unfold in_c0_control_set in Hc0. apply orb_false_iff in Hc0. destruct Hc0 as [Hlow _].
  simpl in Hlist. repeat (apply orb_false_iff in Hlist; destruct Hlist as [? Hlist]).
  repeat split.
  - unfold is_c0_or_space. apply Nat.leb_gt. apply Nat.ltb_ge in Hlow.
    unfold ascii_is in *.
    destruct (Nat.eqb_spec (code c) 32); [discriminate | lia].
  - unfold is_slash. rewrite Hslash. reflexivity.
  - apply orb_false_iff. split; assumption.
  - exact Hset.
Qed.

Lemma path_state_plain (task_id buffer : string) :
  forall_string plain_char task_id = true ->
  path_state false false [] buffer task_id
  = end_segment false false [] (buffer ++ task_id).
Proof.
  revert buffer. induction task_id as [| c rest IH]; intros buffer Hplain; simpl.
  - now rewrite string_app_empty.
  - simpl in Hplain. apply andb_true_iff in Hplain. destruct Hplain as [Hc Hrest].
    destruct (plain_char_facts c Hc) as [_ [Hslash [Hend Hset]]].
    rewrite Hslash, Hend, Hset, (IH _ Hrest), string_app_assoc. reflexivity.
Qed.

Lemma end_segment_plain (task_id : string) :
  is_single_dot task_id = false -> is_double_dot task_id = false ->
  serialize_path (end_segment false false [] task_id) = "/" ++ task_id.
Proof.
  intros Hone Htwo. unfold end_segment. rewrite Hone, Htwo.
  destruct task_id as [| a [| b [| ? ?]]]; simpl; rewrite ?string_app_empty; reflexivity.
Qed.

Lemma URL_pathname_task_uri (task_id : string) :
  url_input (task_uri task_id) = task_uri task_id ->
  URL_pathname (task_uri task_id)
  = Some (serialize_path (path_state false false [] EmptyString task_id)).
Proof.
  intros Hclean. unfold URL_pathname. rewrite Hclean. reflexivity.
Qed.

Lemma task_uri_pathname (task_id : string) :
  plain_identifier task_id = true ->
  URL_pathname (task_uri task_id) = Some ("/" ++ task_id).
Proof.
  unfold plain_identifier. intros H.
  apply andb_true_iff in H. destruct H as [H Htwo].
  apply andb_true_iff in H. destruct H as [Hplain Hone].
  apply negb_true_iff in Hone. apply negb_true_iff in Htwo.
  rewrite URL_pathname_task_uri.
  - rewrite (path_state_plain task_id EmptyString Hplain).
    cbn [append]. rewrite (end_segment_plain task_id Hone Htwo). reflexivity.
  - apply url_input_clean. unfold task_uri.
    rewrite forall_string_append. apply andb_true_iff. split; [reflexivity |].
    revert Hplain. apply forall_string_impl. intros c Hc.
    destruct (plain_char_facts c Hc) as [Hsp _]. now rewrite Hsp.
Qed.

(** The URI template of list-resources and the extraction of read-resource
    are inverse on every identifier made of characters the URL parser leaves
    alone in a path (no slash, nothing of the path percent-encode set) that is
    no dot segment. *)
Theorem plain_identifier_recovered (task_id : string) :
  plain_identifier task_id = true ->
  URL_pathname (task_uri task_id) = Some ("/" ++ task_id)
  /\ option_map strip_leading_slash (URL_pathname (task_uri task_id)) = Some task_id.
Proof.
  intros Hplain. pose proof (task_uri_pathname task_id Hplain) as Hpath.
  split; [exact Hpath |]. rewrite Hpath. reflexivity.
Qed.

Lemma strip_added_slash (s : string) : strip_leading_slash ("/" ++ s) = s.
Proof. reflexivity. Qed.

Lemma own_task_in (store : list (string * Task)) (key : string) (task : Task) :
  own_task store key = Some task -> In (key, task) store.
Proof.
  induction store as [| [k t] rest IH]; simpl; [discriminate |].
  destruct (String.eqb_spec k key) as [-> | _].
  - intros H. inversion H. left. reflexivity.
  - intros H. right. exact (IH H).
Qed.

(** Listing and reading compose on any catalog: a task stored under its own
    identifier, that identifier being plain, is listed with the URI built from
    the identifier, and reading that URI returns the JSON text of the task. *)
Theorem listed_resource_readable (store : list (string * Task)) (task : Task) :
  own_task store (id task) = Some task ->
  plain_identifier (id task) = true ->
  In (mkResource (task_uri (id task)) "application/json" (title task)
        ("Task: " ++ title task))
     (ListResources store)
  /\ ReadResource store (task_uri (id task))
     = Return [mkContents (task_uri (id task)) "application/json"
                 (JSON_stringify_2 (task_object task))].
Proof.
  intros Hown Hplain. split.
  - unfold ListResources. rewrite map_map. apply in_map_iff.
    exists (id task, task). split; [reflexivity | exact (own_task_in _ _ _ Hown)].
  - unfold ReadResource, new_URL_pathname.
    pose proof (task_uri_pathname (id task) Hplain) as Hpath.
    rewrite Hpath. cbn [obind]. rewrite strip_added_slash.
    unfold lookup. rewrite Hown. reflexivity.
Qed.

Lemma inherited_names_plain :
  forallb plain_identifier Object_prototype_functions = true.
Proof. reflexivity. Qed.

(** Whatever the catalog holds, reading the URI of a name that objects
    inherit from [Object.prototype], the catalog having no task under that
    name, succeeds with contents that have no text. *)
Theorem inherited_names_read (store : list (string * Task)) (inherited : string) :
  In inherited Object_prototype_functions ->
  own_task store inherited = None ->
  ReadResource store (task_uri inherited)
  = Return [mkContents (task_uri inherited) "application/json" None].
Proof.
  intros Hin Hown.
  assert (Hplain : plain_identifier inherited = true).
  { pose proof inherited_names_plain as Hall. rewrite forallb_forall in Hall.
    exact (Hall inherited Hin). }
  pose proof (task_uri_pathname inherited Hplain) as Hpath.
  unfold ReadResource, new_URL_pathname. rewrite Hpath. cbn [obind].
  rewrite strip_added_slash. unfold lookup. rewrite Hown.
  assert (Hex : existsb (String.eqb inherited) Object_prototype_functions = true).
  { apply existsb_exists. exists inherited. split; [exact Hin | apply String.eqb_refl]. }
  assert (Hproto : String.eqb inherited "__proto__" = false).
  { apply String.eqb_neq. intros ->. simpl in Hin.
    repeat (destruct Hin as [Hin | Hin]; [discriminate Hin |]). exact Hin. }
  rewrite Hproto, Hex. reflexivity.
Qed.


(** *** The delegating tools, all outcomes *)

Lemma rag_query_run (up : upstream) (arguments : option (list (string * value))) :
  rag_query up arguments
  = match rag_query_request arguments with
    | Throw e => ([], Throw e)
    | Return request =>
        ([Fetch request],
         match up request with
         | Throw e => Throw e
         | Return r =>
             if ok r then
               match json r with
               | Return v => Return [mkBlock "text" (JSON_stringify_2 v)]
               | Throw e => Throw e
               end
             else Throw (Error ("RAG query failed: " ++ statusText r))
         end)
    end.
Proof.
  unfold rag_query. destruct (rag_query_request arguments) as [request | e]; [| reflexivity].
  cbn [lift bind fetch]. destruct (up request) as [r | e]; [| reflexivity].
  destruct (ok r); cbn [negb]; [| reflexivity].
  destruct (json r); reflexivity.
Qed.

Lemma upload_documents_run (up : upstream) (arguments : option (list (string * value))) :
  upload_documents up arguments
  = match upload_documents_request arguments with
    | Throw e => ([], Throw e)
    | Return request =>
        ([Fetch request],
         match up request with
         | Throw e => Throw e
         | Return r =>
             if ok r then
               match json r with
               | Return v => Return [mkBlock "text" (JSON_stringify_2 v)]
               | Throw e => Throw e
               end
             else Throw (Error ("Document upload failed: " ++ statusText r))
         end)
    end.
Proof.
  unfold upload_documents.
  destruct (upload_documents_request arguments) as [request | e]; [| reflexivity].
  cbn [lift bind fetch]. destruct (up request) as [r | e]; [| reflexivity].
  destruct (ok r); cbn [negb]; [| reflexivity].
  destruct (json r); reflexivity.
Qed.

Lemma delegating_sent (up : upstream) (tool_name : string)
    (arguments : option (list (string * value))) (request : fetch_request) :
  tool_name = "rag_query" \/ tool_name = "upload_documents" ->
  In (Fetch request) (fst (CallTool up tool_name arguments)) ->
  exists label,
    (tool_name = "rag_query" /\ label = "RAG query failed: "
       /\ rag_query_request arguments = Return request
     \/ tool_name = "upload_documents" /\ label = "Document upload failed: "
        /\ upload_documents_request arguments = Return request)
    /\ CallTool up tool_name arguments
       = ([Fetch request],
          match up request with
          | Throw e => Throw e
          | Return r =>
              if ok r then
                match json r with
                | Return v => Return [mkBlock "text" (JSON_stringify_2 v)]
                | Throw e => Throw e
                end
              else Throw (Error (label ++ statusText r))
          end).
Proof.
  intros [-> | ->].
  - change (CallTool up "rag_query" arguments) with (rag_query up arguments).
    rewrite rag_query_run.
    destruct (rag_query_request arguments) as [request0 | e]; cbn [fst].
    + intros [Hin | []]. inversion Hin; subst request0.
      exists "RAG query failed: ". split; [left; repeat split | reflexivity].
    + intros [].
  - change (CallTool up "upload_documents" arguments)
      with (upload_documents up arguments).
    rewrite upload_documents_run.
    destruct (upload_documents_request arguments) as [request0 | e]; cbn [fst].
    + intros [Hin | []]. inversion Hin; subst request0.
      exists "Document upload failed: ". split; [right; repeat split | reflexivity].
    + intros [].
Qed.

(** When [upload_documents] has sent a request and the service answered it
    with a status outside 200..299, the call sent that one request and ends in
    the error "Document upload failed: " followed by the status text. *)
Theorem upload_documents_upstream_failure (up : upstream)
    (arguments : option (list (string * value))) (request : fetch_request) (r : response) :
  In (Fetch request) (fst (CallTool up "upload_documents" arguments)) ->
  up request = Return r ->
  ok r = false ->
  CallTool up "upload_documents" arguments
  = ([Fetch request], Throw (Error ("Document upload failed: " ++ statusText r)))
  /\ kind_of (Error ("Document upload failed: " ++ statusText r)) = UpstreamFailure.
Proof.
  intros Hin Hup Hok.
  destruct (delegating_sent up "upload_documents" arguments request (or_intror eq_refl) Hin)
    as [label [[[Hname _] | [_ [-> _]]] Hrun]]; [discriminate Hname |].
  rewrite Hrun, Hup, Hok. split; reflexivity.
Qed.

(** When a delegating tool has sent its request and the service answered it
    with a status in 200..299 and a JSON body, the call returns one text
    block, the body printed by [JSON.stringify] with indentation 2, whatever
    the body is; the one request is all the call sent. *)
Theorem delegated_body_passed_through (up : upstream) (tool_name : string)
    (arguments : option (list (string * value))) (request : fetch_request)
    (r : response) (body : value) :
  tool_name = "rag_query" \/ tool_name = "upload_documents" ->
  In (Fetch request) (fst (CallTool up tool_name arguments)) ->
  up request = Return r ->
  ok r = true ->
  json r = Return body ->
  CallTool up tool_name arguments
  = ([Fetch request], Return [mkBlock "text" (JSON_stringify_2 body)]).
Proof.
  intros Htool Hin Hup Hok Hjson.
  destruct (delegating_sent up tool_name arguments request Htool Hin) as [label [_ Hrun]].
  rewrite Hrun, Hup, Hok, Hjson. reflexivity.
Qed.

(** An exception of [fetch] (no connection) or of [response.json()] (a
    success status with a body that is no JSON) is not caught by a delegating
    tool: the call ends in that very exception, after its one request. *)
Theorem delegated_exception_uncaught (up : upstream) (tool_name : string)
    (arguments : option (list (string * value))) (request : fetch_request)
    (e : js_error) :
  tool_name = "rag_query" \/ tool_name = "upload_documents" ->
  In (Fetch request) (fst (CallTool up tool_name arguments)) ->
  up request = Throw e
  \/ (exists r, up request = Return r /\ ok r = true /\ json r = Throw e) ->
  CallTool up tool_name arguments = ([Fetch request], Throw e).
Proof.
  intros Htool Hin Hcause.
  destruct (delegating_sent up tool_name arguments request Htool Hin) as [label [_ Hrun]].
  rewrite Hrun.
  destruct Hcause as [Hup | [r [Hup [Hok Hjson]]]].
  - rewrite Hup. reflexivity.
  - rewrite Hup, Hok, Hjson. reflexivity.
Qed.


(** *** The local tools *)

Lemma create_note_trace (arguments : option (list (string * value))) :
  fetches (fst (create_note arguments)) = [].
Proof.
  unfold create_note.
  destruct (ToString (arg arguments "title")) as [t | e]; [| reflexivity].
  destruct (ToString (arg arguments "content")) as [c | e]; [| reflexivity].
  cbn [lift bind]. destruct (is_empty t || is_empty c); reflexivity.
Qed.

(** Every way [memory_write] can end. *)
Lemma memory_write_run (arguments : option (list (string * value))) :
  (exists line text,
     memory_write arguments = ([ConsoleLog line], Return [text_block text]))
  \/ (exists cause,
        memory_write arguments
        = ([ConsoleError "Error processing memory_write:" cause],
           Throw (Error ("Failed to process memory_write: " ++ err_message cause)))).
Proof.
  unfold memory_write.
  destruct (ToString (arg arguments "source")) as [s | e];
    [| right; exists e; reflexivity].
  destruct (ToString (arg arguments "task_id")) as [t | e];
    [| right; exists e; reflexivity].
  cbn [lift bind].
  destruct (is_empty s || is_empty t || negb (ToBoolean (arg arguments "payload"))).
  - right. eexists. reflexivity.
  - destruct (ToString (get (arg arguments "payload") "text")) as [text | e].
    + left. eexists. eexists. reflexivity.
    + right. exists e. reflexivity.
Qed.

(** [memory_write] never fails silently and never lets an exception through
    as it is: a failed call has written exactly one line to the error console,
    with the cause, and throws a plain [Error] whose message is the cause's
    behind "Failed to process memory_write: "; a call that returns has logged
    exactly one line and returns exactly one text block. *)
Theorem memory_write_wraps_every_failure (up : upstream)
    (arguments : option (list (string * value))) :
  match CallTool up "memory_write" arguments with
  | (trace, Return blocks) =>
      exists line text, trace = [ConsoleLog line] /\ blocks = [text_block text]
  | (trace, Throw e) =>
      exists cause,
        trace = [ConsoleError "Error processing memory_write:" cause]
        /\ e = Error ("Failed to process memory_write: " ++ err_message cause)
        /\ err_class e = ErrorC
  end.
Proof.
  change (CallTool up "memory_write" arguments) with (memory_write arguments).
  destruct (memory_write_run arguments) as [[line [text ->]] | [cause ->]].
  - exists line, text. split; reflexivity.
  - exists cause. repeat split.
Qed.

(** The guard of [memory_write] sees the coerced strings: whatever the types
    of [source] and [task_id], and also when they are left out, the call is
    rejected exactly when a coerced string is empty or the payload is falsy. *)
Theorem memory_write_guard (up : upstream)
    (arguments : option (list (string * value))) (s t text : string) :
  ToString (arg arguments "source") = Return s ->
  ToString (arg arguments "task_id") = Return t ->
  ToString (get (arg arguments "payload") "text") = Return text ->
  CallTool up "memory_write" arguments
  = if is_empty s || is_empty t || negb (ToBoolean (arg arguments "payload"))
    then ([ConsoleError "Error processing memory_write:"
             (Error "Source, task_id, and payload are required")],
          Throw (Error
            "Failed to process memory_write: Source, task_id, and payload are required"))
    else ([ConsoleLog ("Received memory chunk from " ++ s ++ " for task " ++ t
                         ++ ": " ++ text)],
          Return [text_block ("Processed memory chunk from " ++ s ++ " for task " ++ t)]).
Proof.
  intros Hs Ht Htext.
  change (CallTool up "memory_write" arguments) with (memory_write arguments).
  unfold memory_write. rewrite Hs, Ht. cbn [lift bind].
  destruct (is_empty s || is_empty t || negb (ToBoolean (arg arguments "payload"))).
  - reflexivity.
  - rewrite Htext. reflexivity.
Qed.

Lemma memory_write_trace (arguments : option (list (string * value))) :
  fetches (fst (memory_write arguments)) = [].
Proof.
  destruct (memory_write_run arguments) as [[line [text ->]] | [cause ->]]; reflexivity.
Qed.

Lemma local_tools_trace (up : upstream) (tool_name : string)
    (arguments : option (list (string * value))) :
  In tool_name ["create_note"; "list_tools"; "memory_write"] ->
  fetches (fst (CallTool up tool_name arguments)) = [].
Proof.
  intros [<- | [<- | [<- | []]]].
  - apply create_note_trace.
  - reflexivity.
  - apply memory_write_trace.
Qed.

(** The three local tools never call the network: whatever the arguments,
    the trace holds no request, and the outcome is the same under any two
    networks. *)
Theorem local_tools_offline (up up' : upstream) (tool_name : string)
    (arguments : option (list (string * value))) :
  In tool_name ["create_note"; "list_tools"; "memory_write"] ->
  fetches (fst (CallTool up tool_name arguments)) = []
  /\ CallTool up tool_name arguments = CallTool up' tool_name arguments.
Proof.
  intros Hlocal. split; [exact (local_tools_trace up tool_name arguments Hlocal) |].
  destruct Hlocal as [<- | [<- | [<- | []]]]; reflexivity.
Qed.

Lemma rag_query_request_shape (arguments : option (list (string * value)))
    (request : fetch_request) :
  rag_query_request arguments = Return request ->
  fetch_url request = "http://localhost:8000/rag/query"
  /\ fetch_method request = "POST"
  /\ fetch_headers request = [("Content-Type", "application/json")]
  /\ fetch_body request <> None.
Proof.
  unfold rag_query_request.
  destruct (ToString (arg arguments "collection_name")); [| discriminate].
  destruct (ToString (arg arguments "query")); [| discriminate].
  destruct (optional_number (arg arguments "limit")); [| discriminate].
  destruct (ToString (arg arguments "embedding_model")); [| discriminate].
  destruct (optional_number (arg arguments "timeout")); [| discriminate].
  cbn [obind]. intros H. inversion H. repeat split. discriminate.
Qed.

Lemma upload_documents_request_shape (arguments : option (list (string * value)))
    (request : fetch_request) :
  upload_documents_request arguments = Return request ->
  fetch_url request = "http://localhost:8000/rag/documents"
  /\ fetch_method request = "POST"
  /\ fetch_headers request = [("Content-Type", "application/json")]
  /\ fetch_body request <> None.
Proof.
  unfold upload_documents_request.
  destruct (ToString (arg arguments "collection_name")); [| discriminate].
  destruct (ToString (arg arguments "source")); [| discriminate].
  destruct (ToString (arg arguments "embedding_model")); [| discriminate].
  cbn [obind]. intros H. inversion H. repeat split. discriminate.
Qed.

(** No call-tool invocation, whatever the tool name, the arguments and the
    network, sends more than one request; a request that is sent comes from
    one of the two delegating tools and is a POST with a JSON body and the
    JSON content type to that tool's endpoint. *)
Theorem one_request_at_most (up : upstream) (tool_name : string)
    (arguments : option (list (string * value))) (request : fetch_request) :
  In request (fetches (fst (CallTool up tool_name arguments))) ->
  fetches (fst (CallTool up tool_name arguments)) = [request]
  /\ fetch_method request = "POST"
  /\ fetch_headers request = [("Content-Type", "application/json")]
  /\ fetch_body request <> None
  /\ (tool_name = "rag_query" /\ fetch_url request = "http://localhost:8000/rag/query"
      \/ tool_name = "upload_documents"
         /\ fetch_url request = "http://localhost:8000/rag/documents").
Proof.
  unfold CallTool.
  destruct (String.eqb_spec tool_name "create_note") as [-> | _].
  { rewrite create_note_trace. intros []. }
  destruct (String.eqb_spec tool_name "list_tools") as [-> | _].
  { intros []. }
  destruct (String.eqb_spec tool_name "memory_write") as [-> | _].
  { rewrite memory_write_trace. intros []. }
  destruct (String.eqb_spec tool_name "rag_query") as [-> | _].
  { rewrite rag_query_run.
    destruct (rag_query_request arguments) as [request0 | e] eqn:Hreq; cbn; [| intros []].
    intros [<- | []].
    destruct (rag_query_request_shape arguments request0 Hreq) as [Hurl [Hm [Hh Hb]]].
    repeat split; try assumption. left. split; [reflexivity | exact Hurl]. }
  destruct (String.eqb_spec tool_name "upload_documents") as [-> | _].
  { rewrite upload_documents_run.
    destruct (upload_documents_request arguments) as [request0 | e] eqn:Hreq; cbn;
      [| intros []].
    intros [<- | []].
    destruct (upload_documents_request_shape arguments request0 Hreq)
      as [Hurl [Hm [Hh Hb]]].
    repeat split; try assumption. right. split; [reflexivity | exact Hurl]. }
  intros [].
Qed.


(** *** The bodies [rag_query] posts *)

(** A [limit] and a [timeout] that are left out, or falsy ([0], [null],
    [false], the empty string), are both left out of the body, which then has
    the three string members, each coerced argument quoted as JSON. *)
Theorem rag_query_body_without_numbers (arguments : option (list (string * value)))
    (collection_name query embedding_model : string) :
  ToString (arg arguments "collection_name") = Return collection_name ->
  ToString (arg arguments "query") = Return query ->
  ToString (arg arguments "embedding_model") = Return embedding_model ->
  ToBoolean (arg arguments "limit") = false ->
  ToBoolean (arg arguments "timeout") = false ->
  rag_query_request arguments
  = Return
      (mkFetch "http://localhost:8000/rag/query" "POST"
         [("Content-Type", "application/json")]
         (Some ("{" ++ join ","
                         [ quoted_member "collection_name" collection_name;
                           quoted_member "query" query;
                           quoted_member "embedding_model" embedding_model ]
                    ++ "}"))).
Proof.
  intros Hc Hq He Hl Ht.
  unfold rag_query_request, optional_number. rewrite Hc, Hq, He, Hl, Ht.
  cbn [obind]. reflexivity.
Qed.

(** A truthy [limit] goes through [Number]: the body carries the number
    printed, or [null] when the conversion gives no finite number (a text
    that is no numeral, an object). *)
Theorem rag_query_limit_as_number (arguments : option (list (string * value)))
    (collection_name query embedding_model : string) (n : number) :
  ToString (arg arguments "collection_name") = Return collection_name ->
  ToString (arg arguments "query") = Return query ->
  ToString (arg arguments "embedding_model") = Return embedding_model ->
  ToBoolean (arg arguments "limit") = true ->
  ToNumber (arg arguments "limit") = Return n ->
  ToBoolean (arg arguments "timeout") = false ->
  rag_query_request arguments
  = Return
      (mkFetch "http://localhost:8000/rag/query" "POST"
         [("Content-Type", "application/json")]
         (Some ("{" ++ join ","
                         [ quoted_member "collection_name" collection_name;
                           quoted_member "query" query;
                           QuoteJSONString "limit" ++ ":"
                             ++ (if number_is_finite n then Number_toString n else "null");
                           quoted_member "embedding_model" embedding_model ]
                    ++ "}"))).
Proof.
  intros Hc Hq He Hl Hn Ht.
  unfold rag_query_request, optional_number. rewrite Hc, Hq, He, Hl, Hn, Ht.
  cbn [obind]. reflexivity.
Qed.


(** Leaving out [texts], which the schema requires, does not stop
    [upload_documents]: with [metadata] left out too, the request is built
    with the three coerced strings and no [texts] member. *)
Theorem upload_documents_without_texts (arguments : option (list (string * value)))
    (collection_name source embedding_model : string) :
  ToString (arg arguments "collection_name") = Return collection_name ->
  ToString (arg arguments "source") = Return source ->
  ToString (arg arguments "embedding_model") = Return embedding_model ->
  arg arguments "texts" = VUndefined ->
  arg arguments "metadata" = VUndefined ->
  upload_documents_request arguments
  = Return
      (mkFetch "http://localhost:8000/rag/documents" "POST"
         [("Content-Type", "application/json")]
         (Some ("{" ++ join ","
                         [ quoted_member "collection_name" collection_name;
                           quoted_member "source" source;
                           quoted_member "embedding_model" embedding_model ]
                    ++ "}"))).
Proof.
  intros Hc Hs He Ht Hm.
  unfold upload_documents_request. rewrite Hc, Hs, He, Ht, Hm.
  cbn [obind]. reflexivity.
Qed.

(** *** Requests without a scheme, and requests in sequence *)

Lemma scheme_state_no_colon (s buffer : string) :
  forall_string no_colon s = true -> scheme_state buffer s = None.
Proof.
  revert buffer. induction s as [| c s IH]; intros buffer; simpl; [reflexivity |].
  intros H. apply andb_true_iff in H. destruct H as [Hc Hs].
  unfold no_colon in Hc. apply negb_true_iff in Hc. rewrite Hc.
  destruct (is_scheme_char c); [apply (IH _ Hs) | reflexivity].
Qed.

Lemma forall_string_drop_while (p q : ascii -> bool) (s : string) :
  forall_string p s = true -> forall_string p (drop_while q s) = true.
Proof.
  induction s as [| c s IH]; simpl; [reflexivity |].
  intros H. destruct (q c).
  - apply andb_true_iff in H. exact (IH (proj2 H)).
  - exact H.
Qed.

Lemma forall_string_filter (p q : ascii -> bool) (s : string) :
  forall_string p s = true -> forall_string p (filter_string q s) = true.
Proof.
  induction s as [| c s IH]; simpl; [reflexivity |].
  intros H. apply andb_true_iff in H. destruct H as [Hc Hs].
  destruct (q c); simpl; [rewrite Hc |]; exact (IH Hs).
Qed.

(** A [uri] with no colon in it has no scheme: the URL parser rejects it and
    read-resource throws the parser's [TypeError], whatever the catalog; the
    bare identifier of a task is no URI of that task. *)
Theorem uri_without_colon_rejected (store : list (string * Task)) (uri : string) :
  forall_string no_colon uri = true ->
  ReadResource store uri = Throw invalid_url.
Proof.
  intros Hno.
  assert (Hclean : forall_string no_colon (url_input uri) = true).
  { unfold url_input. apply forall_string_filter.
    rewrite forall_string_rev. apply forall_string_drop_while.
    rewrite forall_string_rev. apply forall_string_drop_while. exact Hno. }
  unfold ReadResource, new_URL_pathname, URL_pathname, scheme_start_state.
  destruct (url_input uri) as [| c rest]; [reflexivity |].
  simpl in Hclean. apply andb_true_iff in Hclean. destruct Hclean as [_ Hrest].
  destruct (is_alpha c); [| reflexivity].
  rewrite (scheme_state_no_colon rest _ Hrest). reflexivity.
Qed.

End FurtherProperties.

(* ------------------------------------------------------------------ *)
(** * The handlers on concrete requests

    Run on [IntegerNumbers] and [NoNamedHosts]. *)

(** [unknown_tool_rejected] at the name "delete_everything". *)
Lemma unknown_tool_rejected_witness :
  ~ In "delete_everything" (map name (@ListTools IntegerNumbers))
  /\ CallTool no_network "delete_everything" None = ([], Throw (Error "Unknown tool")).
Proof.
  assert (Hout : ~ In "delete_everything" (map name (@ListTools IntegerNumbers))).
  { simpl. intros [H | [H | [H | [H | [H | []]]]]]; discriminate H. }
  split.
  - exact Hout.
  - exact (proj1 (unknown_tool_rejected no_network "delete_everything" None Hout)).
Defined.

(** A payload with none of [text], [tag], [timestamp] is accepted. *)
Lemma memory_write_accepts_bare_payload :
  CallTool no_network "memory_write"
    (Some [("source", VStr "agent"); ("task_id", VStr "7"); ("payload", VObj [])])
  = ([ConsoleLog "Received memory chunk from agent for task 7: undefined"],
     Return [text_block "Processed memory chunk from agent for task 7"]).
Proof. reflexivity. Qed.

(** [memory_write_checks_top_level_only] at a call whose payload has a tag
    and nothing else. *)
Lemma memory_write_checks_top_level_only_witness :
  let arguments : option (list (string * @value IntegerNumbers)) :=
    Some [("source", VStr "agent"); ("task_id", VStr "7");
          ("payload", VObj [("tag", VStr "x")])] in
  arg arguments "source" = VStr "agent"
  /\ arg arguments "task_id" = VStr "7"
  /\ CallTool no_network "memory_write" arguments
     = ([ConsoleLog "Received memory chunk from agent for task 7: undefined"],
        Return [text_block "Processed memory chunk from agent for task 7"]).
Proof.
  intros arguments.
  split; [reflexivity | split; [reflexivity |]].
  exact (proj1 (proj2
    (memory_write_checks_top_level_only no_network arguments "agent" "7" eq_refl eq_refl))
    eq_refl "undefined" eq_refl).
Defined.

(** [resource_round_trip] at the first task. *)
Lemma resource_round_trip_witness :
  In ("1", mkTask "1" "First Task" "This is task 1") tasks
  /\ @ReadResource IntegerNumbers NoNamedHosts tasks "task:///1"
     = Return [mkContents "task:///1" "application/json"
                 (Some ("{" ++ nl ++ "  " ++ dq "id" ++ ": " ++ dq "1" ++ "," ++ nl
                          ++ "  " ++ dq "title" ++ ": " ++ dq "First Task" ++ "," ++ nl
                          ++ "  " ++ dq "description" ++ ": " ++ dq "This is task 1" ++ nl
                          ++ "}"))].
Proof.
  assert (Hin : In ("1", mkTask "1" "First Task" "This is task 1") tasks)
    by (simpl; left; reflexivity).
  split.
  - exact Hin.
  - exact (proj1 (proj2 (proj2
      (@resource_round_trip IntegerNumbers NoNamedHosts "1" _ Hin)))).
Defined.

(** [rag_query_upstream_failure] at a call answered with status 500. *)
Lemma rag_query_upstream_failure_witness :
  let arguments : option (list (string * @value IntegerNumbers)) :=
    Some [("collection_name", VStr "docs"); ("query", VStr "q")] in
  let request :=
    mkFetch "http://localhost:8000/rag/query" "POST" [("Content-Type", "application/json")]
      (Some ("{" ++ member "collection_name" "docs" ++ "," ++ member "query" "q" ++ ","
               ++ member "embedding_model" "undefined" ++ "}")) in
  In (Fetch request) (fst (CallTool failing_service "rag_query" arguments))
  /\ CallTool failing_service "rag_query" arguments
     = ([Fetch request], Throw (Error "RAG query failed: Internal Server Error"))
  /\ fetches (fst (CallTool failing_service "rag_query" arguments)) = [request].
Proof.
  intros arguments request.
  assert (Hin : In (Fetch request) (fst (CallTool failing_service "rag_query" arguments)))
    by (left; reflexivity).
  pose proof (rag_query_upstream_failure failing_service arguments request
                (mkResponse 500 "Internal Server Error"
                   (Throw (SyntaxError "Unexpected end of JSON input")))
                Hin eq_refl eq_refl) as [Hrun [Hone _]].
  split; [exact Hin | split; [exact Hrun | exact Hone]].
Defined.

(** [invalid_uri_fails_before_lookup] at a text with no scheme. *)
Lemma invalid_uri_fails_before_lookup_witness :
  @URL_pathname NoNamedHosts "first task" = None
  /\ @ReadResource IntegerNumbers NoNamedHosts tasks "first task" = Throw invalid_url.
Proof.
  split.
  - reflexivity.
  - exact (proj1 (@invalid_uri_fails_before_lookup IntegerNumbers NoNamedHosts
                    tasks "first task" eq_refl)).
Defined.

(** [create_note_guard] at an empty title. *)
Lemma create_note_guard_witness :
  let arguments : option (list (string * @value IntegerNumbers)) :=
    Some [("title", VStr EmptyString); ("content", VStr "B")] in
  ToString (arg arguments "title") = Return EmptyString
  /\ ToString (arg arguments "content") = Return "B"
  /\ CallTool no_network "create_note" arguments
     = ([], Throw (Error "Title and content are required")).
Proof.
  intros arguments.
  split; [reflexivity | split; [reflexivity |]].
  exact (create_note_guard no_network arguments EmptyString "B" eq_refl eq_refl).
Defined.

(** [absent_identifier_not_found] at the identifier 3. *)
Lemma absent_identifier_not_found_witness :
  @URL_pathname NoNamedHosts "task:///3" = Some "/3"
  /\ @ReadResource IntegerNumbers NoNamedHosts tasks "task:///3"
     = Throw (Error "Task 3 not found").
Proof.
  split; [reflexivity |].
  apply (@absent_identifier_not_found IntegerNumbers NoNamedHosts tasks "task:///3" "/3").
  - reflexivity.
  - reflexivity.
  - cbn. discriminate.
  - cbn. intros H.
    repeat (destruct H as [H | H]; [discriminate H |]). exact H.
Defined.

(** [plain_identifier_recovered] at an identifier with a dash, a dot and an
    underscore. *)
Lemma plain_identifier_recovered_witness :
  plain_identifier "42-a_b.c" = true
  /\ @URL_pathname NoNamedHosts "task:///42-a_b.c" = Some "/42-a_b.c".
Proof.
  split; [reflexivity |].
  exact (proj1 (@plain_identifier_recovered NoNamedHosts "42-a_b.c" eq_refl)).
Defined.

(** [listed_resource_readable] at the second task of the catalog. *)
Lemma listed_resource_readable_witness :
  let task := mkTask "2" "Second Task" "This is task 2" in
  own_task tasks (id task) = Some task
  /\ plain_identifier (id task) = true
  /\ In (mkResource "task:///2" "application/json" "Second Task" "Task: Second Task")
        (ListResources tasks)
  /\ @ReadResource IntegerNumbers NoNamedHosts tasks "task:///2"
     = Return [mkContents "task:///2" "application/json"
                 (JSON_stringify_2 (@task_object IntegerNumbers task))].
Proof.
  intros task.
  split; [reflexivity | split; [reflexivity |]].
  exact (@listed_resource_readable IntegerNumbers NoNamedHosts tasks task eq_refl eq_refl).
Defined.

(** [inherited_names_read] at the name valueOf. *)
Lemma inherited_names_read_witness :
  In "valueOf" Object_prototype_functions
  /\ own_task tasks "valueOf" = None
  /\ @ReadResource IntegerNumbers NoNamedHosts tasks "task:///valueOf"
     = Return [mkContents "task:///valueOf" "application/json" None].
Proof.
  assert (Hin : In "valueOf" Object_prototype_functions) by (simpl; tauto).
  split; [exact Hin | split; [reflexivity |]].
  exact (@inherited_names_read IntegerNumbers NoNamedHosts tasks "valueOf" Hin eq_refl).
Defined.

(** [upload_documents_upstream_failure] at a call answered with status 500. *)
Lemma upload_documents_upstream_failure_witness :
  let arguments : option (list (string * @value IntegerNumbers)) :=
    Some [("collection_name", VStr "docs"); ("texts", VArr [VStr "a"]);
          ("source", VStr "wiki"); ("embedding_model", VStr "m")] in
  let request :=
    @post_json IntegerNumbers "http://localhost:8000/rag/documents"
      (VObj [("collection_name", VStr "docs"); ("texts", VArr [VStr "a"]);
             ("source", VStr "wiki"); ("embedding_model", VStr "m")]) in
  In (Fetch request) (fst (CallTool failing_service "upload_documents" arguments))
  /\ CallTool failing_service "upload_documents" arguments
     = ([Fetch request], Throw (Error "Document upload failed: Internal Server Error")).
Proof.
  intros arguments request.
  assert (Hin : In (Fetch request)
                  (fst (CallTool failing_service "upload_documents" arguments)))
    by (left; reflexivity).
  split; [exact Hin |].
  exact (proj1 (upload_documents_upstream_failure failing_service arguments request
                  (mkResponse 500 "Internal Server Error"
                     (Throw (SyntaxError "Unexpected end of JSON input")))
                  Hin eq_refl eq_refl)).
Defined.

(** [delegated_body_passed_through] at an upload answered with status 200. *)
Lemma delegated_body_passed_through_witness :
  let arguments : option (list (string * @value IntegerNumbers)) :=
    Some [("collection_name", VStr "docs"); ("texts", VArr [VStr "a"])] in
  let request :=
    @post_json IntegerNumbers "http://localhost:8000/rag/documents"
      (VObj [("collection_name", VStr "docs"); ("texts", VArr [VStr "a"]);
             ("source", VStr "undefined"); ("embedding_model", VStr "undefined")]) in
  In (Fetch request) (fst (CallTool answering_service "upload_documents" arguments))
  /\ CallTool answering_service "upload_documents" arguments
     = ([Fetch request],
        Return [text_block ("{" ++ nl ++ "  " ++ dq "results" ++ ": []" ++ nl ++ "}")]).
Proof.
  intros arguments request.
  assert (Hin : In (Fetch request)
                  (fst (CallTool answering_service "upload_documents" arguments)))
    by (left; reflexivity).
  split; [exact Hin |].
  exact (delegated_body_passed_through answering_service "upload_documents" arguments
           request (mkResponse 200 "OK" (Return (VObj [("results", VArr [])])))
           (VObj [("results", VArr [])]) (or_intror eq_refl) Hin eq_refl eq_refl eq_refl).
Defined.

(** [delegated_exception_uncaught] at a query with no service listening. *)
Lemma delegated_exception_uncaught_witness :
  let arguments : option (list (string * @value IntegerNumbers)) :=
    Some [("collection_name", VStr "docs"); ("query", VStr "q")] in
  let request :=
    @post_json IntegerNumbers "http://localhost:8000/rag/query"
      (VObj [("collection_name", VStr "docs"); ("query", VStr "q");
             ("embedding_model", VStr "undefined")]) in
  In (Fetch request) (fst (CallTool no_network "rag_query" arguments))
  /\ no_network request = Throw (TypeError "fetch failed")
  /\ CallTool no_network "rag_query" arguments
     = ([Fetch request], Throw (TypeError "fetch failed")).
Proof.
  intros arguments request.
  assert (Hin : In (Fetch request) (fst (CallTool no_network "rag_query" arguments)))
    by (left; reflexivity).
  split; [exact Hin | split; [reflexivity |]].
  exact (delegated_exception_uncaught no_network "rag_query" arguments request
           (TypeError "fetch failed") (or_introl eq_refl) Hin (or_introl eq_refl)).
Defined.

(** [memory_write_guard] at a call with no [source], a number for
    [task_id] and [true] for the payload. *)
Lemma memory_write_guard_witness :
  let arguments : option (list (string * @value IntegerNumbers)) :=
    Some [("task_id", VNum (Some 7%Z : @number IntegerNumbers)); ("payload", VBool true)] in
  ToString (arg arguments "source") = Return "undefined"
  /\ ToString (arg arguments "task_id") = Return "7"
  /\ ToString (get (arg arguments "payload") "text") = Return "undefined"
  /\ CallTool no_network "memory_write" arguments
     = ([ConsoleLog "Received memory chunk from undefined for task 7: undefined"],
        Return [text_block "Processed memory chunk from undefined for task 7"]).
Proof.
  intros arguments.
  split; [reflexivity | split; [reflexivity | split; [reflexivity |]]].
  exact (memory_write_guard no_network arguments "undefined" "7" "undefined"
           eq_refl eq_refl eq_refl).
Defined.

(** [local_tools_offline] at [memory_write], under two networks. *)
Lemma local_tools_offline_witness :
  let arguments : option (list (string * @value IntegerNumbers)) :=
    Some [("source", VStr "agent"); ("task_id", VStr "7"); ("payload", VObj [])] in
  In "memory_write" ["create_note"; "list_tools"; "memory_write"]
  /\ fetches (fst (CallTool no_network "memory_write" arguments)) = []
  /\ CallTool no_network "memory_write" arguments
     = CallTool failing_service "memory_write" arguments.
Proof.
  intros arguments.
  assert (Hin : In "memory_write" ["create_note"; "list_tools"; "memory_write"])
    by (simpl; tauto).
  split; [exact Hin |].
  exact (local_tools_offline no_network failing_service "memory_write" arguments Hin).
Defined.

(** [one_request_at_most] at a query. *)
Lemma one_request_at_most_witness :
  let arguments : option (list (string * @value IntegerNumbers)) :=
    Some [("collection_name", VStr "docs"); ("query", VStr "q")] in
  let request :=
    @post_json IntegerNumbers "http://localhost:8000/rag/query"
      (VObj [("collection_name", VStr "docs"); ("query", VStr "q");
             ("embedding_model", VStr "undefined")]) in
  In request (fetches (fst (CallTool failing_service "rag_query" arguments)))
  /\ fetches (fst (CallTool failing_service "rag_query" arguments)) = [request].
Proof.
  intros arguments request.
  assert (Hin : In request (fetches (fst (CallTool failing_service "rag_query" arguments))))
    by (left; reflexivity).
  split; [exact Hin |].
  exact (proj1 (one_request_at_most failing_service "rag_query" arguments request Hin)).
Defined.

(** [rag_query_body_without_numbers] at a call whose limit is zero. *)
Lemma rag_query_body_without_numbers_witness :
  let arguments : option (list (string * @value IntegerNumbers)) :=
    Some [("collection_name", VStr "docs"); ("query", VStr "q");
          ("limit", VNum (Some 0%Z : @number IntegerNumbers)); ("embedding_model", VStr "m")] in
  ToBoolean (arg arguments "limit") = false
  /\ ToBoolean (arg arguments "timeout") = false
  /\ option_map fetch_body
       (match rag_query_request arguments with Return r => Some r | Throw _ => None end)
     = Some (Some ("{" ++ member "collection_name" "docs" ++ "," ++ member "query" "q"
                     ++ "," ++ member "embedding_model" "m" ++ "}")).
Proof.
  intros arguments.
  split; [reflexivity | split; [reflexivity |]].
  rewrite (rag_query_body_without_numbers arguments "docs" "q" "m"
             eq_refl eq_refl eq_refl eq_refl eq_refl).
  reflexivity.
Defined.

(** [rag_query_limit_as_number] at a limit that is no numeral. *)
Lemma rag_query_limit_as_number_witness :
  let arguments : option (list (string * @value IntegerNumbers)) :=
    Some [("collection_name", VStr "docs"); ("query", VStr "q");
          ("limit", VStr "ten"); ("embedding_model", VStr "m")] in
  ToBoolean (arg arguments "limit") = true
  /\ ToNumber (arg arguments "limit") = Return (@NaN IntegerNumbers)
  /\ option_map fetch_body
       (match rag_query_request arguments with Return r => Some r | Throw _ => None end)
     = Some (Some ("{" ++ member "collection_name" "docs" ++ "," ++ member "query" "q"
                     ++ "," ++ dq "limit" ++ ":null"
                     ++ "," ++ member "embedding_model" "m" ++ "}")).
Proof.
  intros arguments.
  split; [reflexivity | split; [reflexivity |]].
  rewrite (rag_query_limit_as_number arguments "docs" "q" "m" (@NaN IntegerNumbers)
             eq_refl eq_refl eq_refl eq_refl eq_refl eq_refl).
  reflexivity.
Defined.

(** [upload_documents_without_texts] at a call that names the collection
    only. *)
Lemma upload_documents_without_texts_witness :
  let arguments : option (list (string * @value IntegerNumbers)) :=
    Some [("collection_name", VStr "docs")] in
  arg arguments "texts" = VUndefined
  /\ option_map fetch_body
       (match upload_documents_request arguments with
        | Return r => Some r
        | Throw _ => None
        end)
     = Some (Some ("{" ++ member "collection_name" "docs" ++ ","
                     ++ member "source" "undefined" ++ ","
                     ++ member "embedding_model" "undefined" ++ "}")).
Proof.
  intros arguments.
  split; [reflexivity |].
  rewrite (upload_documents_without_texts arguments "docs" "undefined" "undefined"
             eq_refl eq_refl eq_refl eq_refl eq_refl).
  reflexivity.
Defined.

(** [uri_without_colon_rejected] at the bare identifier of the first task. *)
Lemma uri_without_colon_rejected_witness :
  forall_string no_colon "1" = true
  /\ @ReadResource IntegerNumbers NoNamedHosts tasks "1" = Throw invalid_url.
Proof.
  split; [reflexivity |].
  exact (@uri_without_colon_rejected IntegerNumbers NoNamedHosts tasks "1" eq_refl).
Defined.

(** A text with a space in it is no URI, yet the URL parser accepts it: it
    escapes the space, the handler looks the escaped key up in the catalog
    and throws the not-found error, not a parsing error. With the space at
    the end the parser drops it and the read returns the first task. *)
Lemma repaired_uri_reaches_lookup :
  forall_string uri_character "task:///a b" = false
  /\ @URL_pathname NoNamedHosts "task:///a b" = Some "/a%20b"
  /\ @ReadResource IntegerNumbers NoNamedHosts tasks "task:///a b"
     = Throw (Error "Task a%20b not found")
  /\ kind_of (Error "Task a%20b not found") = NotFound
  /\ forall_string uri_character "task:///1 " = false
  /\ @ReadResource IntegerNumbers NoNamedHosts tasks "task:///1 "
     = Return [mkContents "task:///1 " "application/json"
                 (JSON_stringify_2
                    (@task_object IntegerNumbers (mkTask "1" "First Task" "This is task 1")))].
Proof. repeat split. Qed.
